(** * tracer-component: the scope engine and its identity / formatting helpers

    A shallow embedding of the logic module (trace strings, random
    identifiers, [buildTraceContext]) and of the tracer component
    ([createTracerComponent]: [span] and the accessors and mutators that run
    inside a span), followed by the properties of the engine.

    JavaScript objects that the program mutates are kept in an explicit heap:
    trace contexts and trace-state objects are referred to by reference, so
    that two contexts holding the same trace-state object see each other's
    writes, as they do in the program. *)

From Stdlib Require Import ZArith NArith String Ascii List.
From Stdlib Require Import HexadecimalString HexadecimalN DecimalString DecimalN.
From Stdlib.Strings Require Byte.
From stdpp Require Import base option list strings numbers.

Local Open Scope string_scope.

(** ** JavaScript values used by the program *)

(** The Number values the engine handles.  [Int z] is the double whose value is
    the integer [z] (|z| < 2^53, negative zero excluded); [Inf] is the
    infinity that the literal [Infinity] denotes; [Unevaluated s] is the
    double [StringToNumber(s)] for a numeric literal [s] whose value is not
    such an integer (a fraction, negative zero, a magnitude of 2^53 or more),
    so that finding it takes floating-point rounding.  The code never
    compares two numbers: it stores them, tests them against [undefined] and
    renders them with [toString(16)]. *)
Inductive number : Type :=
  | NaN
  | Int (z : Z)
  | Inf (negative : bool)
  | Unevaluated (s : string).

(** What a caller can put in the [version] and [traceFlags] fields of a seed
    context: the declared type is [number]; the test-suite passes the strings
    of a traceparent header (['00']), which [span] converts with [Number];
    [VUndefined] is a field left out. *)
Inductive value : Type :=
  | VNumber (n : number)
  | VString (s : string)
  | VUndefined.

Definition two53 : N := 9007199254740992.

(** Characters are code units below 256.  [StrWhiteSpaceChar] among them:
    TAB, LF, VT, FF, CR, SP and NBSP. *)
Definition is_white_space (c : ascii) : bool :=
  match nat_of_ascii c with
  | 9 | 10 | 11 | 12 | 13 | 32 | 160 => true
  | _ => false
  end.

Fixpoint trim_start (s : string) : string :=
  match s with
  | "" => ""
  | String c rest => if is_white_space c then trim_start rest else s
  end.

Fixpoint trim_end (s : string) : string :=
  match s with
  | "" => ""
  | String c rest =>
    match trim_end rest with
    | "" => if is_white_space c then "" else String c ""
    | rest' => String c rest'
    end
  end.

Definition is_decimal_digit (c : ascii) : bool :=
  ((48 <=? nat_of_ascii c) && (nat_of_ascii c <=? 57))%nat.

(** The longest prefix of decimal digits, and what follows it. *)
Fixpoint digit_prefix (s : string) : string * string :=
  match s with
  | "" => ("", "")
  | String c rest =>
    if is_decimal_digit c
    then let '(digits, after) := digit_prefix rest in (String c digits, after)
    else ("", s)
  end.

(** The value of a string of decimal digits. *)
Definition decimal_value (digits : string) : N :=
  match DecimalString.NilEmpty.uint_of_string digits with
  | Some d => N.of_uint d
  | None => 0
  end.

(** The value of a character as a digit in [radix] (2, 8 or 16; letters in
    either case). *)
Definition radix_digit (radix : N) (c : ascii) : option N :=
  let n := N_of_ascii c in
  let v :=
    if ((48 <=? n) && (n <=? 57))%N then Some (n - 48)%N
    else if ((97 <=? n) && (n <=? 102))%N then Some (n - 87)%N
    else if ((65 <=? n) && (n <=? 70))%N then Some (n - 55)%N
    else None in
  match v with
  | Some d => if (d <? radix)%N then Some d else None
  | None => None
  end.

Fixpoint radix_value (radix : N) (acc : N) (digits : string) : option N :=
  match digits with
  | "" => Some acc
  | String c rest =>
    match radix_digit radix c with
    | Some d => radix_value radix (radix * acc + d)%N rest
    | None => None
    end
  end.

(** The integer [negative ? -n : n] as a Number, when it is one the model
    evaluates. *)
Definition integer_number (literal : string) (negative : bool) (n : N) : number :=
  if (n <? two53)%N
  then if negative
       then if (n =? 0)%N then Unevaluated literal else Int (- Z.of_N n)
       else Int (Z.of_N n)
  else Unevaluated literal.

(** [NonDecimalIntegerLiteral]: [0x], [0o] or [0b] and at least one digit of
    that radix.  [None] when the string does not start with such a prefix. *)
Definition non_decimal_literal (literal : string) : option number :=
  match literal with
  | String "0" (String p digits) =>
    let radix :=
      match p with
      | "x" | "X" => Some 16%N
      | "o" | "O" => Some 8%N
      | "b" | "B" => Some 2%N
      | _ => None
      end%char in
    match radix with
    | Some radix =>
      match digits, radix_value radix 0 digits with
      | String _ _, Some n => Some (integer_number literal false n)
      | _, _ => Some NaN
      end
    | None => None
    end
  | _ => None
  end.

(** [ExponentPart], or nothing: the exponent, [None] when malformed. *)
Definition exponent_part (s : string) : option Z :=
  match s with
  | "" => Some 0%Z
  | String e rest =>
    if (Ascii.eqb e "e" || Ascii.eqb e "E")%char
    then
      let '(negative, digits) :=
        match rest with
        | String "+" digits => (false, digits)
        | String "-" digits => (true, digits)
        | _ => (false, rest)
        end%char in
      match digits, digit_prefix digits with
      | String _ _, (_, "") =>
        Some (if negative then - Z.of_N (decimal_value digits)
              else Z.of_N (decimal_value digits))%Z
      | _, _ => None
      end
    else None
  end.

(** The Number for the decimal [mantissa * 10^exponent], [mantissa] being the
    value of [digits]. *)
Definition decimal_number (literal : string) (negative : bool)
    (digits : string) (exponent : Z) : number :=
  let mantissa := decimal_value digits in
  if (mantissa =? 0)%N then integer_number literal negative 0
  else if (0 <=? exponent)%Z
  then
    if (exponent <=? 16)%Z
    then integer_number literal negative (mantissa * 10 ^ Z.to_N exponent)
    else Unevaluated literal
  else
    let k := Z.to_N (- exponent) in
    if (k <? N.of_nat (String.length digits))%N && (mantissa mod 10 ^ k =? 0)%N
    then integer_number literal negative (mantissa / 10 ^ k)
    else Unevaluated literal.

(** [StrUnsignedDecimalLiteral] after an optional sign. *)
Definition unsigned_decimal_literal (literal : string) (negative : bool)
    (s : string) : number :=
  if String.eqb s "Infinity" then Inf negative
  else
    let '(integer, after_integer) := digit_prefix s in
    let '(fraction, after_fraction) :=
      match after_integer with
      | String "."%char rest => digit_prefix rest
      | _ => ("", after_integer)
      end in
    match integer +:+ fraction with
    | "" => NaN
    | digits =>
      match exponent_part after_fraction with
      | Some exponent =>
        decimal_number literal negative digits
          (exponent - Z.of_nat (String.length fraction))
      | None => NaN
      end
    end.

(** [StringToNumber]: white space is trimmed; the empty string is [0]; a
    [StringNumericLiteral] gives its value; anything else is [NaN]. *)
Definition StringToNumber (s : string) : number :=
  let literal := trim_end (trim_start s) in
  match literal with
  | "" => Int 0
  | String sign rest =>
    match non_decimal_literal literal with
    | Some n => n
    | None =>
      if Ascii.eqb sign "+" then unsigned_decimal_literal literal false rest
      else if Ascii.eqb sign "-" then unsigned_decimal_literal literal true rest
      else unsigned_decimal_literal literal false literal
    end
  end.

(** [Number(v)]. *)
Definition Number (v : value) : number :=
  match v with
  | VNumber n => n
  | VString s => StringToNumber s
  | VUndefined => NaN
  end.

(** Radix-16 numeral of a natural number, lower case, no padding. *)
Definition hex_of_N (n : N) : string :=
  HexadecimalString.NilZero.string_of_uint (N.to_hex_uint n).

Section Rendering.

(** [Number.prototype.toString(16)] of a double that is not a safe integer
    is left to the JavaScript implementation by ECMA-262; it is a parameter
    of the model, indexed by the unevaluated string. *)
Variable host_toString16 : string -> string.

(** [n.toString(16)]. *)
Definition toString16 (n : number) : string :=
  match n with
  | NaN => "NaN"
  | Int z => if (z <? 0)%Z then "-" +:+ hex_of_N (Z.abs_N z) else hex_of_N (Z.abs_N z)
  | Inf negative => if negative then "-Infinity" else "Infinity"
  | Unevaluated s => host_toString16 s
  end.

End Rendering.

(** [`${x}`] for a string that may be [undefined]. *)
Definition template_string (x : option string) : string :=
  default "undefined" x.

(** ** Trace-state objects

    A trace state is an ordinary object used as a string-to-string map.  The
    model keeps its own properties in creation order, and whether
    [Object.freeze] was applied to it. *)
Record TraceStateObject : Type := {
  props : list (string * string);
  frozen : bool
}.

(** The object literal [{}]. *)
Definition empty_object : TraceStateObject := {| props := []; frozen := false |}.

Global Instance TraceStateObject_inhabited : Inhabited TraceStateObject :=
  populate empty_object.

Fixpoint own_property (key : string) (ps : list (string * string)) : option string :=
  match ps with
  | [] => None
  | (k, v) :: rest => if String.eqb k key then Some v else own_property key rest
  end.

(** Assignment to an existing own property keeps its position. *)
Fixpoint update_property (key value : string) (ps : list (string * string))
  : list (string * string) :=
  match ps with
  | [] => []
  | (k, v) :: rest =>
    if String.eqb k key then (k, value) :: rest
    else (k, v) :: update_property key value rest
  end.

Fixpoint remove_property (key : string) (ps : list (string * string))
  : list (string * string) :=
  match ps with
  | [] => []
  | (k, v) :: rest =>
    if String.eqb k key then rest else (k, v) :: remove_property key rest
  end.

(** Errors the engine can surface: its own [NotInSpanError], the [TypeError]
    that strict-mode code (every module is strict) gets from writing to a
    frozen object, and whatever the traced function raises. *)
Inductive exn : Type :=
  | NotInSpanError
  | TypeError
  | HostError (what : string).

(** [o[key] = value] for a string [value], in strict mode.
    - an own property is overwritten, unless the object is frozen;
    - ["__proto__"] that is not an own property reaches the setter inherited
      from [Object.prototype], which ignores a value that is not an object;
    - any other key creates a property at the end, unless the object is
      frozen (not extensible). *)
Definition object_set (key value : string) (o : TraceStateObject)
  : exn + TraceStateObject :=
  match own_property key (props o) with
  | Some _ =>
    if frozen o then inl TypeError
    else inr {| props := update_property key value (props o); frozen := frozen o |}
  | None =>
    if String.eqb key "__proto__" then inr o
    else if frozen o then inl TypeError
    else inr {| props := props o ++ [(key, value)]; frozen := frozen o |}
  end.

(** [delete o[key]] in strict mode: removing a property of a frozen object is
    a [TypeError]; a key that is not an own property is left alone. *)
Definition object_delete (key : string) (o : TraceStateObject)
  : exn + TraceStateObject :=
  match own_property key (props o) with
  | Some _ =>
    if frozen o then inl TypeError
    else inr {| props := remove_property key (props o); frozen := frozen o |}
  | None => inr o
  end.

(** [Object.freeze(o)]. *)
Definition object_freeze (o : TraceStateObject) : TraceStateObject :=
  {| props := props o; frozen := true |}.

(** An array index is the canonical decimal numeral of an integer below
    2^32 - 1; such keys are enumerated first, in ascending order. *)
Definition array_index (key : string) : option N :=
  match DecimalString.NilEmpty.uint_of_string key with
  | Some d =>
    let n := N.of_uint d in
    if String.eqb (DecimalString.NilZero.string_of_uint (N.to_uint n)) key
       && (n <? 4294967295)%N
    then Some n else None
  | None => None
  end.

Fixpoint insert_by_index (n : N) (e : string * string)
  (sorted : list (N * (string * string))) : list (N * (string * string)) :=
  match sorted with
  | [] => [(n, e)]
  | (m, e') :: rest =>
    if (n <? m)%N then (n, e) :: (m, e') :: rest
    else (m, e') :: insert_by_index n e rest
  end.

Fixpoint index_entries (ps : list (string * string)) : list (N * (string * string)) :=
  match ps with
  | [] => []
  | (k, v) :: rest =>
    match array_index k with
    | Some n => insert_by_index n (k, v) (index_entries rest)
    | None => index_entries rest
    end
  end.

Definition named_entries (ps : list (string * string)) : list (string * string) :=
  filter (λ e, array_index e.1 = None) ps.

(** [Object.entries(o)]: array-index keys in ascending order, then the other
    keys in creation order. *)
Definition Object_entries (o : TraceStateObject) : list (string * string) :=
  (snd <$> index_entries (props o)) ++ named_entries (props o).

(** [Object.keys(o)]. *)
Definition Object_keys (o : TraceStateObject) : list string :=
  fst <$> Object_entries o.

(** ** Records, the heap and the engine's monad *)

(** A reference to an object of the heap. *)
Abbreviation ref := nat (only parsing).

(** Modelled from the spec: the constant [INVALID_SPAN_ID] of the constants
    module, "a fixed all-zero hex string of the same length as a generated
    span id (16 characters)". *)
Definition INVALID_SPAN_ID : string := "0000000000000000".

(** [Trace]: what [getTrace] and [getTraceChild] hand out.  The [traceId] is
    the one property that can be [undefined]: see [TraceContext]. *)
Record Trace : Type := {
  tr_traceId : option string;
  tr_version : number;
  tr_parentId : string;
  tr_traceFlags : number
}.

(** What [Object.freeze] makes of a payload: a primitive is returned as it
    is, an object is frozen in place, and an array-buffer view (a [Buffer], a
    typed array) that has elements cannot be frozen. *)
Inductive payload_kind : Type :=
  | PrimitiveValue
  | OrdinaryObject
  | ViewWithElements.

(** The payloads of a host: values compared by identity, each of a kind. *)
Class Payload (T : Type) : Type := {
  payload_eq_dec :: EqDecision T;
  kind_of : T -> payload_kind
}.

Section Tracer.

(** The type of the payload a host attaches to a span ([data]). *)
Context {T : Type} `{!Payload T}.

(** See [toString16]. *)
Variable host_toString16 : string -> string.

(** [TraceContext]: the record bound during a span.  [traceState] holds a
    reference to a trace-state object, or is absent.  [traceId] is
    [undefined] when the context comes from a seed that has none (the
    declared type requires one, nothing checks it).  The other three
    properties [isInsideOfTraceSpan] looks at always hold a value:
    [buildTraceContext] stores [parentId ?? INVALID_SPAN_ID], and [span] gives
    it a [version] and [traceFlags] that are the result of [Number], the
    parent's, or [0]. *)
Record TraceContext : Type := {
  ctx_name : string;
  ctx_id : string;
  ctx_parentId : string;
  ctx_traceId : option string;
  ctx_version : number;
  ctx_traceFlags : number;
  ctx_traceState : option ref;
  ctx_data : option T
}.

Global Instance TraceContext_inhabited : Inhabited TraceContext :=
  populate {| ctx_name := ""; ctx_id := ""; ctx_parentId := ""; ctx_traceId := None;
              ctx_version := NaN; ctx_traceFlags := NaN;
              ctx_traceState := None; ctx_data := None |}.

(** The optional third argument of [span]: a trace context without [id] and
    [name].  [parentId] and [traceId] are what the caller's object holds,
    which may be nothing. *)
Record Seed : Type := {
  seed_parentId : option string;
  seed_traceId : option string;
  seed_version : value;
  seed_traceFlags : value;
  seed_traceState : option ref;
  seed_data : option T
}.

(** The state of the process as far as the engine is concerned:
    - the trace contexts and trace-state objects allocated so far, a
      reference being an index;
    - what [asyncLocalStorage.getStore()] returns on the current execution
      branch;
    - the bytes [randomBytes] will deliver, and how many were drawn;
    - the payload objects that have been frozen. *)
Record world : Type := {
  contexts : list TraceContext;
  objects : list TraceStateObject;
  store : option ref;
  entropy : nat -> Byte.byte;
  drawn : nat;
  frozen_payloads : list T
}.

Definition set_contexts (cs : list TraceContext) (w : world) : world :=
  {| contexts := cs; objects := objects w; store := store w;
     entropy := entropy w; drawn := drawn w;
     frozen_payloads := frozen_payloads w |}.

Definition set_objects (os : list TraceStateObject) (w : world) : world :=
  {| contexts := contexts w; objects := os; store := store w;
     entropy := entropy w; drawn := drawn w;
     frozen_payloads := frozen_payloads w |}.

Definition set_store (s : option ref) (w : world) : world :=
  {| contexts := contexts w; objects := objects w; store := s;
     entropy := entropy w; drawn := drawn w;
     frozen_payloads := frozen_payloads w |}.

Definition set_drawn (n : nat) (w : world) : world :=
  {| contexts := contexts w; objects := objects w; store := store w;
     entropy := entropy w; drawn := n;
     frozen_payloads := frozen_payloads w |}.

Definition set_frozen_payloads (ds : list T) (w : world) : world :=
  {| contexts := contexts w; objects := objects w; store := store w;
     entropy := entropy w; drawn := drawn w;
     frozen_payloads := ds |}.

(** A call either returns a value or throws. *)
Inductive outcome (A : Type) : Type :=
  | Returned (a : A)
  | Thrown (e : exn).
Global Arguments Returned {A} a.
Global Arguments Thrown {A} e.

(** Computations of the engine and of the code it traces. *)
Definition M (A : Type) : Type := world -> outcome A * world.

Global Instance M_ret : MRet M := λ A a w, (Returned a, w).

Global Instance M_bind : MBind M := λ A B f m w,
  match m w with
  | (Returned a, w') => f a w'
  | (Thrown e, w') => (Thrown e, w')
  end.

Global Instance M_throw : MThrow exn M := λ A e w, (Thrown e, w).

Definition get_world : M world := λ w, (Returned w, w).

Definition modify_world (f : world -> world) : M unit := λ w, (Returned tt, f w).

(** [try { body } finally { cleanup }] for a cleanup that cannot throw. *)
Definition finally {A} (body : M A) (cleanup : world -> world) : M A := λ w,
  let '(r, w') := body w in (r, cleanup w').

(** Reading and writing the fields of a context object. *)
Definition read_context (p : ref) : M TraceContext :=
  w ← get_world; mret (contexts w !!! p).

Definition write_context (p : ref) (c : TraceContext) : M unit :=
  modify_world (λ w, set_contexts (<[p := c]> (contexts w)) w).

Definition new_context (c : TraceContext) : M ref :=
  w ← get_world;
  modify_world (set_contexts (contexts w ++ [c]));;
  mret (length (contexts w)).

Definition read_object (r : ref) : M TraceStateObject :=
  w ← get_world; mret (objects w !!! r).

Definition write_object (r : ref) (o : TraceStateObject) : M unit :=
  modify_world (λ w, set_objects (<[r := o]> (objects w)) w).

Definition new_object (o : TraceStateObject) : M ref :=
  w ← get_world;
  modify_world (set_objects (objects w ++ [o]));;
  mret (length (objects w)).

(** ** The logic module *)

(** Builds a trace parent string representation based on its properties. *)
Definition buildTraceString (traceParent : Trace) : string :=
  toString16 host_toString16 (tr_version traceParent) +:+ "-" +:+
  template_string (tr_traceId traceParent) +:+ "-" +:+
  tr_parentId traceParent +:+ "-" +:+
  toString16 host_toString16 (tr_traceFlags traceParent).

(** [randomBytes(length)] of [node:crypto]: the next [length] bytes of the
    entropy source. *)
Definition randomBytes (length : nat) : M (list Byte.byte) := λ w,
  (Returned ((λ i, entropy w (drawn w + i)) <$> seq 0 length),
   set_drawn (drawn w + length) w).

Definition hex_digit (n : nat) : ascii :=
  match n with
  | 0 => "0" | 1 => "1" | 2 => "2" | 3 => "3" | 4 => "4" | 5 => "5" | 6 => "6"
  | 7 => "7" | 8 => "8" | 9 => "9" | 10 => "a" | 11 => "b" | 12 => "c"
  | 13 => "d" | 14 => "e" | _ => "f"
  end%char.

(** [buffer.toString('hex')]: two lower-case digits per byte. *)
Fixpoint Buffer_toString_hex (bytes : list Byte.byte) : string :=
  match bytes with
  | [] => ""
  | b :: rest =>
    String (hex_digit (Byte.to_nat b / 16))
      (String (hex_digit (Byte.to_nat b mod 16)) (Buffer_toString_hex rest))
  end.

Definition lower_char (c : ascii) : ascii :=
  let n := nat_of_ascii c in
  if ((65 <=? n) && (n <=? 90))%nat then ascii_of_nat (n + 32) else c.

(** [s.toLowerCase()], on the ASCII letters (it is only applied to the
    output of [Buffer_toString_hex]). *)
Fixpoint toLowerCase (s : string) : string :=
  match s with
  | "" => ""
  | String c rest => String (lower_char c) (toLowerCase rest)
  end.

(** Generates a random set of bytes and converts them into a lowercased hex
    string. *)
Definition generateRandomBytesHexString (length : nat) : M string :=
  bytes ← randomBytes length;
  mret (toLowerCase (Buffer_toString_hex bytes)).

Definition generateTraceId : M string := generateRandomBytesHexString 16.

Definition generateSpanId : M string := generateRandomBytesHexString 8.

(** Builds a trace context using the provided trace information; the result
    is a new object.  Without a parent id, the invalid span id is used. *)
Definition buildTraceContext (name : string) (parentId : option string)
    (traceId : option string) (version traceFlags : number)
    (traceState : option ref) (data : option T) : M ref :=
  id ← generateSpanId;
  new_context {|
    ctx_name := name;
    ctx_id := id;
    ctx_parentId := default INVALID_SPAN_ID parentId;
    ctx_traceId := traceId;
    ctx_version := version;
    ctx_traceFlags := traceFlags;
    ctx_traceState := traceState;
    ctx_data := data
  |}.

(** ** The tracer component *)

(** [asyncLocalStorage.getStore()]. *)
Definition getStore : M (option ref) := w ← get_world; mret (store w).

(** [asyncLocalStorage.run(context, fn)] for a synchronous [fn]: the store
    is [context] while [fn] runs and is put back to what it was when [fn]
    returns or throws. *)
Definition asyncLocalStorage_run {A} (context : ref) (fn : M A) : M A :=
  previous ← getStore;
  finally (modify_world (set_store (Some context));; fn) (set_store previous).

(** Create a new tracing span over a specified function. *)
Definition span {A} (name : string) (tracedFunction : M A)
    (traceContext : option Seed) : M A :=
  parentTraceContext ← getStore;
  newContext ←
    match traceContext with
    | Some traceContext =>
      buildTraceContext name
        (seed_parentId traceContext)
        (seed_traceId traceContext)
        (Number (seed_version traceContext))
        (Number (seed_traceFlags traceContext))
        (seed_traceState traceContext)
        (seed_data traceContext)
    | None =>
      match parentTraceContext with
      | Some parentTraceContext =>
        parent ← read_context parentTraceContext;
        buildTraceContext name
          (ctx_traceId parent)
          (ctx_traceId parent)
          (ctx_version parent)
          (ctx_traceFlags parent)
          (ctx_traceState parent)
          None
      | None =>
        (* Set up default values *)
        traceId ← generateTraceId;
        buildTraceContext name (Some INVALID_SPAN_ID) (Some traceId) (Int 0) (Int 0)
          None None
      end
    end;
  asyncLocalStorage_run newContext tracedFunction.

(** [x !== undefined] for the value [x] of a property. *)
Definition defined {A} (x : option A) : bool :=
  match x with
  | Some _ => true
  | None => false
  end.

(** Gets if the execution context is inside of a trace span or not.  Reading
    [parentId], [traceFlags] or [version] always gives a value (see
    [TraceContext]); [traceId] may be [undefined]. *)
Definition isInsideOfTraceSpan : M bool :=
  currentContext ← getStore;
  match currentContext with
  | None => mret false
  | Some p =>
    c ← read_context p;
    mret (defined (Some (ctx_parentId c)) && defined (ctx_traceId c) &&
          defined (Some (ctx_traceFlags c)) && defined (Some (ctx_version c)))
  end.

(** The guard every other operation starts with:
    [if (!currentContext) throw new NotInSpanError()]. *)
Definition currentContextOrThrow : M ref :=
  currentContext ← getStore;
  match currentContext with
  | None => mthrow NotInSpanError
  | Some p => mret p
  end.

Definition getSpanId : M string :=
  p ← currentContextOrThrow;
  c ← read_context p;
  mret (ctx_id c).

Definition getTrace : M Trace :=
  p ← currentContextOrThrow;
  c ← read_context p;
  mret {| tr_traceId := ctx_traceId c; tr_version := ctx_version c;
          tr_parentId := ctx_parentId c; tr_traceFlags := ctx_traceFlags c |}.

Definition getTraceString : M string :=
  traceParent ← getTrace;
  mret (buildTraceString traceParent).

Definition getTraceChild : M Trace :=
  p ← currentContextOrThrow;
  c ← read_context p;
  mret {| tr_traceId := ctx_traceId c; tr_version := ctx_version c;
          tr_parentId := ctx_id c; tr_traceFlags := ctx_traceFlags c |}.

Definition getTraceChildString : M string :=
  traceChild ← getTraceChild;
  mret (buildTraceString traceChild).

(** [Object.freeze(currentContext?.traceState ?? null)]: the object the
    context holds is frozen in place and handed out; [None] is [null]. *)
Definition getTraceState : M (option ref) :=
  p ← currentContextOrThrow;
  c ← read_context p;
  match ctx_traceState c with
  | Some r =>
    o ← read_object r;
    write_object r (object_freeze o);;
    mret (Some r)
  | None => mret None
  end.

(** [`${curr}`] for the two-element array [[key, value]]. *)
Definition entry_toString (curr : string * string) : string :=
  curr.1 +:+ "," +:+ curr.2.

(** [arr.reduce((acc, curr, index, arr) =>
      `${acc}=${curr}${index !== arr.length - 1 ? ',' : ''}`, acc)]
    from position [index] on. *)
Fixpoint reduce_entries (arr_length index : nat) (acc : string)
    (rest : list (string * string)) : string :=
  match rest with
  | [] => acc
  | curr :: rest' =>
    reduce_entries arr_length (S index)
      (acc +:+ "=" +:+ entry_toString curr +:+
       (if decide (index ≠ arr_length - 1) then "," else ""))
      rest'
  end.

(** Gets the string representation of the properties of the trace state;
    [None] is [undefined]. *)
Definition getTraceStateString : M (option string) :=
  traceState ← getTraceState;
  match traceState with
  | Some r =>
    o ← read_object r;
    if (0 <? length (Object_keys o))%nat
    then
      let arr := Object_entries o in
      mret (Some (reduce_entries (length arr) 0 "" arr))
    else mret None
  | None => mret None
  end.

(** The payload object [value] becomes frozen, if it is not. *)
Definition mark_frozen (value : T) (w : world) : world :=
  if decide (value ∈ frozen_payloads w) then w
  else set_frozen_payloads (value :: frozen_payloads w) w.

(** [Object.freeze(value)] for a payload: a primitive is left alone, an
    object is frozen in place, an array-buffer view with elements makes
    [Object.freeze] throw a [TypeError]. *)
Definition Object_freeze_payload (value : T) : M unit :=
  match kind_of value with
  | PrimitiveValue => mret tt
  | OrdinaryObject => modify_world (mark_frozen value)
  | ViewWithElements => mthrow TypeError
  end.

(** [Object.freeze(currentContext?.data ?? null)]: the payload the context
    holds is frozen in place and handed out; [None] is [null]. *)
Definition getContextData : M (option T) :=
  p ← currentContextOrThrow;
  c ← read_context p;
  match ctx_data c with
  | Some data => Object_freeze_payload data;; mret (Some data)
  | None => mret None
  end.

Definition with_data (data : option T) (c : TraceContext) : TraceContext :=
  {| ctx_name := ctx_name c; ctx_id := ctx_id c; ctx_parentId := ctx_parentId c;
     ctx_traceId := ctx_traceId c; ctx_version := ctx_version c;
     ctx_traceFlags := ctx_traceFlags c; ctx_traceState := ctx_traceState c;
     ctx_data := data |}.

Definition with_traceState (traceState : option ref) (c : TraceContext) : TraceContext :=
  {| ctx_name := ctx_name c; ctx_id := ctx_id c; ctx_parentId := ctx_parentId c;
     ctx_traceId := ctx_traceId c; ctx_version := ctx_version c;
     ctx_traceFlags := ctx_traceFlags c; ctx_traceState := traceState;
     ctx_data := ctx_data c |}.

(** [currentContext.data = data]. *)
Definition setContextData (data : option T) : M unit :=
  p ← currentContextOrThrow;
  c ← read_context p;
  write_context p (with_data data c).

(** Sets a property of the trace state, creating the object when the
    context has none. *)
Definition setTraceStateProperty (key value : string) : M unit :=
  p ← currentContextOrThrow;
  c ← read_context p;
  r ← match ctx_traceState c with
      | Some r => mret r
      | None =>
        r ← new_object empty_object;
        write_context p (with_traceState (Some r) c);;
        mret r
      end;
  o ← read_object r;
  match object_set key value o with
  | inr o' => write_object r o'
  | inl e => mthrow e
  end.

(** Deletes a property of the trace state. *)
Definition deleteTraceStateProperty (key : string) : M unit :=
  p ← currentContextOrThrow;
  c ← read_context p;
  match ctx_traceState c with
  | Some r =>
    o ← read_object r;
    match object_delete key o with
    | inr o' => write_object r o'
    | inl e => mthrow e
    end
  | None => mret tt
  end.

End Tracer.

Global Arguments TraceContext : clear implicits.
Global Arguments Seed : clear implicits.
Global Arguments world : clear implicits.
Global Arguments M : clear implicits.

(** ** Vocabulary of the statements *)

(** The state of a process in which [createTracerComponent] has just run:
    nothing allocated, nothing bound. *)
Definition initial_world (T : Type) (bytes : nat -> Byte.byte) : world T :=
  {| contexts := []; objects := []; store := None; entropy := bytes; drawn := 0;
     frozen_payloads := [] |}.

(** The context object bound in [w], if any. *)
Definition bound_context {T} (w : world T) : option (TraceContext T) :=
  p ← store w; contexts w !! p.

(** What a span does around the traced function: the function runs from
    [w_in], then the store is put back to [previous]. *)
Definition around {T A} (previous : option ref) (fn : M T A) (w_in : world T)
  : outcome A * world T :=
  ((fn w_in).1, set_store previous (fn w_in).2).

(** Code that leaves the store alone, which is all a host can do other than
    through [span]: the storage is private to the component. *)
Definition keeps_store {T A} (m : M T A) : Prop :=
  ∀ w, store (m w).2 = store w.

(** Code that leaves the store alone and leaves the bound context its
    [traceId]: no operation of the component assigns [traceId]. *)
Definition keeps_bound_traceId {T A} (m : M T A) : Prop :=
  ∀ w, store (m w).2 = store w ∧
       ctx_traceId <$> bound_context (m w).2 = ctx_traceId <$> bound_context w.

(** What [Object.freeze(data ?? null)] evaluates to: [null] when there is no
    data, a [TypeError] for an array-buffer view with elements, else the data
    itself. *)
Definition frozen_or_null {T} `{!Payload T} (data : option T) : outcome (option T) :=
  match data with
  | Some d =>
    match kind_of d with
    | ViewWithElements => Thrown TypeError
    | _ => Returned (Some d)
    end
  | None => Returned None
  end.

(** The identifier [generateRandomBytesHexString length] returns in [w]. *)
Definition hex_from_entropy {T} (length : nat) (w : world T) : string :=
  toLowerCase (Buffer_toString_hex ((λ i, entropy w (drawn w + i)) <$> seq 0 length)).

(** The number a lower-case hexadecimal numeral denotes. *)
Definition hex_value (s : string) : option N :=
  N.of_hex_uint <$> HexadecimalString.NilZero.uint_of_string s.

(** Follows the spec's words: the entries as [key=value] pairs joined by
    commas. *)
Definition key_value_pairs (entries : list (string * string)) : string :=
  String.concat "," ((λ e, e.1 +:+ "=" +:+ e.2) <$> entries).

(** What the reduction of [getTraceStateString] writes for one entry. *)
Definition equals_key_comma_value (e : string * string) : string :=
  "=" +:+ e.1 +:+ "," +:+ e.2.

(** Follows the spec's words: a span nested in [w] under [name], running
    [child_work], leaves the context bound in [w] as it was, trace-state
    mapping included. *)
Definition parent_untouched_by {T} (name : string) (child_work : M T unit)
    (w : world T) : Prop :=
  ∀ p parent r o,
    store w = Some p → contexts w !! p = Some parent →
    ctx_traceState parent = Some r → objects w !! r = Some o →
    let w' := (span name child_work None w).2 in
    contexts w' !! p = Some parent ∧ objects w' !! r = Some o.

(** Whether a character is one of [0-9a-f]. *)
Definition is_hex_digit (c : ascii) : bool :=
  existsb (Ascii.eqb c) (list_ascii_of_string "0123456789abcdef").

Fixpoint string_forallb (test : ascii -> bool) (s : string) : bool :=
  match s with
  | "" => true
  | String c rest => test c && string_forallb test rest
  end.

(** Position of a character in a string. *)
Fixpoint index_of (c : ascii) (s : string) : option nat :=
  match s with
  | "" => None
  | String d rest => if Ascii.eqb c d then Some 0 else S <$> index_of c rest
  end.

Definition hex_digit_value (c : ascii) : option nat :=
  index_of c "0123456789abcdef".

(** Reading a lower-case hex string back into bytes, two digits per byte
    (what [Buffer.from(s, 'hex')] does on such a string). *)
Fixpoint hex_decode (s : string) : option (list Byte.byte) :=
  match s with
  | "" => Some []
  | String hi (String lo rest) =>
    h ← hex_digit_value hi;
    l ← hex_digit_value lo;
    b ← Byte.of_nat (16 * h + l);
    bytes ← hex_decode rest;
    Some (b :: bytes)
  | String _ "" => None
  end.

(** A trace-state object is a JavaScript object: no key occurs twice. *)
Definition unique_keys (o : TraceStateObject) : Prop :=
  NoDup (fst <$> props o).

(** Every trace-state object of the heap has unique keys. *)
Definition objects_wf {T} (w : world T) : Prop :=
  Forall unique_keys (objects w).


(** ** Sample inputs *)

(** The one payload of type [unit] is an ordinary object. *)
Global Instance unit_payload : Payload unit :=
  {| kind_of := λ _, OrdinaryObject |}.

Definition sample_bytes : nat -> Byte.byte :=
  λ i, default Byte.x00 (Byte.of_nat ((i * 37 + 11) mod 256)).

(** The trace state of the test-suite: [{ aStateKey: 'aStateValue' }], held
    by a seed context. *)
Definition test_state : TraceStateObject :=
  {| props := [("aStateKey", "aStateValue")]; frozen := false |}.

Definition test_seed : Seed unit :=
  {| seed_parentId := Some "00f067aa0ba902b7";
     seed_traceId := Some "4bf92f3577b34da6a3ce929d0e0e4736";
     seed_version := VString "00";
     seed_traceFlags := VString "01";
     seed_traceState := Some 0;
     seed_data := None |}.

(** A host with two payloads: a request object and a [Buffer] that is not
    empty. *)
Inductive sample_payload : Type :=
  | request_object
  | body_buffer.

Global Instance sample_payload_eq_dec : EqDecision sample_payload.
Proof. solve_decision. Defined.

Global Instance sample_payload_kinds : Payload sample_payload :=
  {| kind_of := λ data,
       match data with
       | request_object => OrdinaryObject
       | body_buffer => ViewWithElements
       end |}.

Definition seed_with_data (data : sample_payload) : Seed sample_payload :=
  {| seed_parentId := Some "00f067aa0ba902b7";
     seed_traceId := Some "4bf92f3577b34da6a3ce929d0e0e4736";
     seed_version := VNumber (Int 0);
     seed_traceFlags := VNumber (Int 1);
     seed_traceState := None;
     seed_data := Some data |}.

(** A seed whose object has no [traceId] (and no [parentId]). *)
Definition seed_without_traceId : Seed unit :=
  {| seed_parentId := None;
     seed_traceId := None;
     seed_version := VNumber (Int 0);
     seed_traceFlags := VNumber (Int 0);
     seed_traceState := None;
     seed_data := None |}.

Definition test_world : world unit :=
  {| contexts := []; objects := [test_state]; store := None;
     entropy := sample_bytes; drawn := 0; frozen_payloads := [] |}.

(** The world seen inside [span('parent', ...)] once the parent has set a
    trace-state property: what a nested span starts from. *)
Definition inside_parent : world unit :=
  match (span "parent" (setTraceStateProperty "k" "v";; get_world) None
           (initial_world unit sample_bytes)).1 with
  | Returned w => w
  | Thrown _ => initial_world unit sample_bytes
  end.

(** The world seen inside [span('plain', ...)] opened from the initial state:
    a context is bound and it has no trace state. *)
Definition inside_plain : world unit :=
  match (span "plain" get_world None (initial_world unit sample_bytes)).1 with
  | Returned w => w
  | Thrown _ => initial_world unit sample_bytes
  end.

(** * Properties *)

(** ** Strings and numerals *)

Lemma string_app_assoc (s1 s2 s3 : string) : (s1 +:+ s2) +:+ s3 = s1 +:+ s2 +:+ s3.
Proof. induction s1 as [|c s1 IH]; [done | exact (f_equal (String c) IH)]. Qed.

Lemma string_app_nil_r (s : string) : s +:+ "" = s.
Proof. induction s as [|c s IH]; [done | exact (f_equal (String c) IH)]. Qed.

(** *** [Number] on strings of decimal digits *)

Lemma uint_of_char_digit (c : ascii) (d d' : Decimal.uint) :
  DecimalString.uint_of_char c (Some d) = Some d' → is_decimal_digit c = true.
Proof.
  destruct c as [[] [] [] [] [] [] [] []]; cbn; intros H; try discriminate H; reflexivity.
Qed.

Lemma uint_of_string_digits (s : string) (d : Decimal.uint) :
  DecimalString.NilEmpty.uint_of_string s = Some d →
  string_forallb is_decimal_digit s = true.
Proof.
  revert d. induction s as [|c s IH]; intros d; [done|].
  cbn [DecimalString.NilEmpty.uint_of_string string_forallb].
  destruct (DecimalString.NilEmpty.uint_of_string s) as [d0|] eqn:Hs.
  - intros Hc%uint_of_char_digit. rewrite Hc. by apply (IH d0).
  - by destruct c as [[] [] [] [] [] [] [] []].
Qed.

Lemma digit_not_white_space (c : ascii) :
  is_decimal_digit c = true → is_white_space c = false.
Proof. destruct c as [[] [] [] [] [] [] [] []]; cbn; intros H; try discriminate H; reflexivity. Qed.

Lemma trim_start_digits (s : string) :
  string_forallb is_decimal_digit s = true → trim_start s = s.
Proof.
  destruct s as [|c s]; [done|]. cbn. intros [Hc _]%andb_prop.
  by rewrite digit_not_white_space.
Qed.

Lemma trim_end_digits (s : string) :
  string_forallb is_decimal_digit s = true → trim_end s = s.
Proof.
  induction s as [|c s IH]; [done|]. cbn. intros [Hc Hs]%andb_prop.
  rewrite IH by done. destruct s; [|done].
  by rewrite digit_not_white_space.
Qed.

Lemma digit_prefix_digits (s : string) :
  string_forallb is_decimal_digit s = true → digit_prefix s = (s, "").
Proof.
  induction s as [|c s IH]; [done|]. cbn. intros [Hc Hs]%andb_prop.
  by rewrite Hc, IH.
Qed.

Lemma non_decimal_literal_digits (s : string) :
  string_forallb is_decimal_digit s = true → non_decimal_literal s = None.
Proof.
  destruct s as [|c [|p s]]; [done| |].
  - by destruct c as [[] [] [] [] [] [] [] []].
  - cbn. intros [_ [Hp _]%andb_prop]%andb_prop.
    destruct c as [[] [] [] [] [] [] [] []]; try reflexivity.
    destruct p as [[] [] [] [] [] [] [] []]; try discriminate Hp; reflexivity.
Qed.

(** A non-empty string of decimal digits converts to the number it denotes. *)
Lemma StringToNumber_digits (s : string) (d : Decimal.uint) :
  s ≠ "" → DecimalString.NilEmpty.uint_of_string s = Some d →
  (N.of_uint d < two53)%N →
  StringToNumber s = Int (Z.of_N (N.of_uint d)).
Proof.
  intros Hne Hd Hlt.
  pose proof (uint_of_string_digits s d Hd) as Hdigits.
  unfold StringToNumber.
  rewrite trim_start_digits, trim_end_digits by done.
  destruct s as [|c rest]; [done|].
  rewrite non_decimal_literal_digits by done.
  assert (is_decimal_digit c = true) as Hc.
  { cbn in Hdigits. by apply andb_prop in Hdigits as [? _]. }
  assert (Ascii.eqb c "+" = false ∧ Ascii.eqb c "-" = false ∧ Ascii.eqb c "I" = false)
    as (-> & -> & HI).
  { clear -Hc. by destruct c as [[] [] [] [] [] [] [] []]. }
  unfold unsigned_decimal_literal.
  assert (String.eqb (String c rest) "Infinity" = false) as ->.
  { cbn. by rewrite HI. }
  rewrite digit_prefix_digits by done.
  rewrite string_app_nil_r.
  cbn [exponent_part String.length Z.of_nat Z.sub Z.opp Z.add].
  unfold decimal_number, decimal_value. rewrite Hd.
  destruct (N.eqb_spec (N.of_uint d) 0) as [->|Hnz].
  - reflexivity.
  - cbn [Z.leb Z.compare Z.to_N N.pow]. rewrite N.mul_1_r.
    unfold integer_number. by rewrite (proj2 (N.ltb_lt _ _) Hlt).
Qed.

Lemma toLowerCase_length (s : string) : String.length (toLowerCase s) = String.length s.
Proof. induction s as [|c s IH]; [done | cbn; by f_equal]. Qed.

Lemma Buffer_toString_hex_length (bytes : list Byte.byte) :
  String.length (Buffer_toString_hex bytes) = 2 * length bytes.
Proof. induction bytes as [|b bytes IH]; simpl; [done | rewrite IH; lia]. Qed.

(** A generated identifier has two characters per random byte. *)
Lemma hex_from_entropy_length {T} (n : nat) (w : world T) :
  String.length (hex_from_entropy n w) = 2 * n.
Proof.
  unfold hex_from_entropy.
  by rewrite toLowerCase_length, Buffer_toString_hex_length, length_fmap, length_seq.
Qed.

(** [hex_of_N] writes a numeral that reads back as the number. *)
Lemma hex_value_hex_of_N (n : N) : hex_value (hex_of_N n) = Some n.
Proof.
  unfold hex_value, hex_of_N.
  rewrite HexadecimalString.NilZero.usu.
  - simpl. by rewrite HexadecimalN.Unsigned.of_to.
  - destruct n as [|p]; [done | apply HexadecimalPos.Unsigned.to_uint_nonnil].
Qed.

Lemma toString16_natural (f : string -> string) (n : N) :
  toString16 f (Int (Z.of_N n)) = hex_of_N n.
Proof.
  unfold toString16.
  destruct (Z.ltb_spec (Z.of_N n) 0) as [Hneg|_]; [lia|].
  by rewrite Zabs2N.id.
Qed.

(** The reduction of [getTraceStateString], in closed form: every entry is
    written as [=key,value] and the entries are separated by commas. *)
Lemma reduce_entries_closed_form (rest : list (string * string)) :
  ∀ (arr_length index : nat) (acc : string),
    index + length rest = arr_length →
    reduce_entries arr_length index acc rest =
    acc +:+ String.concat "," (equals_key_comma_value <$> rest).
Proof.
  induction rest as [|curr rest IH]; intros n i acc Hlen; simpl.
  - by rewrite string_app_nil_r.
  - simpl in Hlen. rewrite IH by lia.
    destruct rest as [|next rest].
    + simpl in *. rewrite decide_False by lia.
      unfold equals_key_comma_value, entry_toString.
      by rewrite !string_app_assoc, !string_app_nil_r.
    + simpl in Hlen. rewrite decide_True by lia.
      unfold equals_key_comma_value, entry_toString.
      change (equals_key_comma_value <$> next :: rest)
        with (equals_key_comma_value next :: (equals_key_comma_value <$> rest)).
      cbn [String.concat].
      by rewrite !string_app_assoc.
Qed.

(** ** The engine *)

Section Engine.
Context {T : Type} `{!Payload T}.
Implicit Types (w : world T) (name key value : string) (p r : ref).

Lemma generateSpanId_run w :
  generateSpanId w = (Returned (hex_from_entropy 8 w), set_drawn (drawn w + 8) w).
Proof. reflexivity. Qed.

Lemma generateTraceId_run w :
  generateTraceId w = (Returned (hex_from_entropy 16 w), set_drawn (drawn w + 16) w).
Proof. reflexivity. Qed.

(** Unfolds the monad and the heap primitives, keeping identifiers
    symbolic. *)
Ltac run_M :=
  unfold span, asyncLocalStorage_run, finally, buildTraceContext, new_context,
    read_context, write_context, read_object, write_object, new_object,
    currentContextOrThrow, getStore, modify_world, get_world, around,
    mbind, M_bind, mret, M_ret, mthrow, M_throw;
  cbn -[hex_from_entropy generateSpanId generateTraceId];
  rewrite ?generateTraceId_run; cbn -[hex_from_entropy generateSpanId generateTraceId];
  rewrite ?generateSpanId_run; cbn -[hex_from_entropy generateSpanId generateTraceId].

Ltac unfold_engine :=
  unfold isInsideOfTraceSpan, getSpanId, getTrace, getTraceString, getTraceChild,
    getTraceChildString, getTraceState, getTraceStateString, getContextData,
    setContextData, setTraceStateProperty, deleteTraceStateProperty.

(** *** What [span] does in each branch of the derivation *)

Lemma span_seed_run {A} name (work : M T A) (s : Seed T) w :
  span name work (Some s) w =
  around (store w) work
    {| contexts := contexts w ++ [
         {| ctx_name := name; ctx_id := hex_from_entropy 8 w;
            ctx_parentId := default INVALID_SPAN_ID (seed_parentId s);
            ctx_traceId := seed_traceId s;
            ctx_version := Number (seed_version s);
            ctx_traceFlags := Number (seed_traceFlags s);
            ctx_traceState := seed_traceState s;
            ctx_data := seed_data s |} ];
       objects := objects w; store := Some (length (contexts w));
       entropy := entropy w; drawn := drawn w + 8;
       frozen_payloads := frozen_payloads w |}.
Proof. run_M. by destruct (work _). Qed.

Lemma span_nested_run {A} name (work : M T A) w p :
  store w = Some p →
  span name work None w =
  around (store w) work
    {| contexts := contexts w ++ [
         {| ctx_name := name; ctx_id := hex_from_entropy 8 w;
            ctx_parentId := default INVALID_SPAN_ID (ctx_traceId (contexts w !!! p));
            ctx_traceId := ctx_traceId (contexts w !!! p);
            ctx_version := ctx_version (contexts w !!! p);
            ctx_traceFlags := ctx_traceFlags (contexts w !!! p);
            ctx_traceState := ctx_traceState (contexts w !!! p);
            ctx_data := None |} ];
       objects := objects w; store := Some (length (contexts w));
       entropy := entropy w; drawn := drawn w + 8;
       frozen_payloads := frozen_payloads w |}.
Proof.
  intros Hp. run_M. rewrite !Hp. run_M.
  unfold set_store, set_contexts, set_drawn; cbn -[hex_from_entropy].
  destruct (work _); cbn; by rewrite ?Hp.
Qed.

Lemma span_root_run {A} name (work : M T A) w :
  store w = None →
  span name work None w =
  around (store w) work
    {| contexts := contexts w ++ [
         {| ctx_name := name;
            ctx_id := hex_from_entropy 8 (set_drawn (drawn w + 16) w);
            ctx_parentId := INVALID_SPAN_ID;
            ctx_traceId := Some (hex_from_entropy 16 w);
            ctx_version := Int 0;
            ctx_traceFlags := Int 0;
            ctx_traceState := None;
            ctx_data := None |} ];
       objects := objects w; store := Some (length (contexts w));
       entropy := entropy w; drawn := drawn w + 16 + 8;
       frozen_payloads := frozen_payloads w |}.
Proof.
  intros Hp. run_M. rewrite !Hp. run_M.
  unfold set_store, set_contexts, set_drawn; cbn -[hex_from_entropy].
  destruct (work _); cbn; by rewrite ?Hp.
Qed.

(** In every branch the traced function starts with a new context object
    bound, the objects allocated before are as they were, and the store is
    put back afterwards. *)
Lemma span_run {A} name (work : M T A) (seed : option (Seed T)) w :
  ∃ (derived : TraceContext T) (n : nat),
    span name work seed w =
    around (store w) work
      {| contexts := contexts w ++ [derived]; objects := objects w;
         store := Some (length (contexts w));
         entropy := entropy w; drawn := drawn w + n;
         frozen_payloads := frozen_payloads w |}.
Proof.
  destruct seed as [s|]; [|destruct (store w) as [p|] eqn:Hp].
  - eexists _, _. apply span_seed_run.
  - eexists _, _. rewrite <- Hp. by apply span_nested_run.
  - eexists _, (16 + 8). rewrite <- Hp, Nat.add_assoc. by apply span_root_run.
Qed.

(** *** The store is only changed by [span], and only for the traced
    function *)

Lemma keeps_store_bind {A B} (m : M T A) (f : A → M T B) :
  keeps_store m → (∀ a, keeps_store (f a)) → keeps_store (m ≫= f).
Proof.
  intros Hm Hf w. unfold mbind, M_bind.
  specialize (Hm w). destruct (m w) as [[a|e] w1]; cbn in *; [|done].
  by rewrite Hf.
Qed.

Lemma keeps_store_span {A} name (work : M T A) seed : keeps_store (span name work seed).
Proof.
  intros w. destruct (span_run name work seed w) as (derived & n & ->).
  reflexivity.
Qed.

Lemma keeps_store_isInsideOfTraceSpan : keeps_store (T:=T) isInsideOfTraceSpan.
Proof. intros w. unfold_engine. run_M. by destruct (store w) eqn:E. Qed.

Lemma keeps_store_getSpanId : keeps_store (T:=T) getSpanId.
Proof. intros w. unfold_engine. run_M. by destruct (store w) eqn:E. Qed.

Lemma keeps_store_getTrace : keeps_store (T:=T) getTrace.
Proof. intros w. unfold_engine. run_M. by destruct (store w) eqn:E. Qed.

Lemma keeps_store_getTraceChild : keeps_store (T:=T) getTraceChild.
Proof. intros w. unfold_engine. run_M. by destruct (store w) eqn:E. Qed.

Lemma keeps_store_getTraceString f : keeps_store (T:=T) (getTraceString f).
Proof. apply keeps_store_bind; [apply keeps_store_getTrace | by intros a w]. Qed.

Lemma keeps_store_getTraceChildString f : keeps_store (T:=T) (getTraceChildString f).
Proof. apply keeps_store_bind; [apply keeps_store_getTraceChild | by intros a w]. Qed.

Lemma keeps_store_getContextData : keeps_store (T:=T) getContextData.
Proof.
  intros w. unfold_engine. run_M.
  destruct (store w) as [p|] eqn:E; cbn; [|done].
  destruct (ctx_data _) as [data|]; cbn; [|done].
  unfold Object_freeze_payload, mark_frozen.
  destruct (kind_of data); run_M; try done.
  by case_decide.
Qed.

Lemma keeps_store_setContextData data : keeps_store (T:=T) (setContextData data).
Proof. intros w. unfold_engine. run_M. by destruct (store w) eqn:E. Qed.

Lemma keeps_store_getTraceState : keeps_store (T:=T) getTraceState.
Proof.
  intros w. unfold_engine. run_M.
  destruct (store w) as [p|] eqn:E; cbn; [|done].
  by destruct (ctx_traceState _).
Qed.

Lemma keeps_store_getTraceStateString : keeps_store (T:=T) getTraceStateString.
Proof.
  intros w. unfold getTraceStateString.
  pose proof (keeps_store_getTraceState w) as Hs.
  unfold mbind, M_bind. destruct (getTraceState w) as [[[r|]|e] w1]; cbn in *; try done.
  run_M. by case_match.
Qed.

Lemma keeps_store_setTraceStateProperty key value :
  keeps_store (T:=T) (setTraceStateProperty key value).
Proof.
  intros w. unfold_engine. run_M.
  destruct (store w) as [p|] eqn:E; cbn; [|done].
  destruct (ctx_traceState _); cbn; by destruct (object_set _ _ _).
Qed.

Lemma keeps_store_deleteTraceStateProperty key :
  keeps_store (T:=T) (deleteTraceStateProperty key).
Proof.
  intros w. unfold_engine. run_M.
  destruct (store w) as [p|] eqn:E; cbn; [|done].
  destruct (ctx_traceState _); cbn; [|done]. by destruct (object_delete _ _).
Qed.

Lemma bound_context_new (cs : list (TraceContext T)) (c : TraceContext T)
    (os : list TraceStateObject) (e : nat → Byte.byte) (d : nat) (ds : list T) :
  bound_context {| contexts := cs ++ [c]; objects := os;
                   store := Some (length cs); entropy := e; drawn := d;
                   frozen_payloads := ds |} = Some c.
Proof. unfold bound_context; cbn. by rewrite list_lookup_middle. Qed.

Lemma bound_context_Some w (c : TraceContext T) :
  bound_context w = Some c ↔ ∃ p, store w = Some p ∧ contexts w !! p = Some c.
Proof.
  unfold bound_context. destruct (store w) as [p|]; cbn.
  - split; [eauto | by intros (? & [= <-] & ?)].
  - split; [done | by intros (? & ? & ?)].
Qed.

(** No mutator of the component changes the [traceId] of the bound
    context. *)
Lemma bound_traceId_insert (cs : list (TraceContext T)) p
    (change : TraceContext T → TraceContext T) :
  (∀ c, ctx_traceId (change c) = ctx_traceId c) →
  ctx_traceId <$> (<[p := change (cs !!! p)]> cs !! p) = ctx_traceId <$> (cs !! p).
Proof.
  intros Hchange. destruct (cs !! p) as [c|] eqn:Hc.
  - rewrite list_lookup_insert_eq by by eapply lookup_lt_Some.
    cbn. by rewrite Hchange, (list_lookup_total_correct _ _ _ Hc).
  - by rewrite list_insert_ge, Hc by by apply lookup_ge_None.
Qed.

Lemma keeps_bound_traceId_bind {A B} (m : M T A) (f : A → M T B) :
  keeps_bound_traceId m → (∀ a, keeps_bound_traceId (f a)) →
  keeps_bound_traceId (m ≫= f).
Proof.
  intros Hm Hf w. unfold mbind, M_bind.
  specialize (Hm w). destruct (m w) as [[a|e] w1]; cbn in *; [|done].
  destruct (Hf a w1) as [Hstore Hbound]. destruct Hm as [Hstore1 Hbound1].
  split; congruence.
Qed.

Lemma keeps_bound_traceId_setContextData data :
  keeps_bound_traceId (T:=T) (setContextData data).
Proof.
  intros w. unfold_engine. run_M. unfold bound_context.
  destruct (store w) as [p|] eqn:E; cbn; [|by rewrite E].
  rewrite E. cbn. split; [done|].
  by apply (bound_traceId_insert _ _ (with_data data)).
Qed.

Lemma keeps_bound_traceId_setTraceStateProperty key value :
  keeps_bound_traceId (T:=T) (setTraceStateProperty key value).
Proof.
  intros w. unfold_engine. run_M. unfold bound_context.
  destruct (store w) as [p|] eqn:E; cbn; [|by rewrite E].
  destruct (ctx_traceState _); cbn; destruct (object_set _ _ _); cbn;
    rewrite ?E; cbn; (split; [done|]); try done;
    by apply (bound_traceId_insert _ _ (with_traceState _)).
Qed.

Lemma keeps_bound_traceId_deleteTraceStateProperty key :
  keeps_bound_traceId (T:=T) (deleteTraceStateProperty key).
Proof.
  intros w. unfold_engine. run_M. unfold bound_context.
  destruct (store w) as [p|] eqn:E; cbn; [|by rewrite E].
  destruct (ctx_traceState _); cbn; [|by rewrite E].
  destruct (object_delete _ _); cbn; by rewrite E.
Qed.

(** *** Claims about [span] *)

(** C5: for every call [span(name, work, seed?)] the derived context, a new
    object, is the bound one when [work] starts; when [work] returns or
    throws the store holds again what it held before the call; and the
    result of [span] is the value [work] returned or the exception it threw.
    (With [keeps_store_span] and the other [keeps_store] lemmas: nothing
    between entry and exit changes the binding except a nested span, which
    restores it.) *)
Theorem span_binds_for_work_and_restores {A} name (work : M T A)
    (seed : option (Seed T)) w :
  ∃ (derived : TraceContext T) (w_in : world T),
    bound_context w_in = Some derived ∧
    contexts w_in = (contexts w ++ [derived])%list ∧
    store w_in = Some (length (contexts w)) ∧
    (span name work seed w).1 = (work w_in).1 ∧
    (span name work seed w).2 = set_store (store w) (work w_in).2 ∧
    store (span name work seed w).2 = store w.
Proof.
  destruct (span_run name work seed w) as (derived & n & Hrun).
  eexists derived, _. rewrite Hrun. unfold around; cbn.
  split; [apply bound_context_new | done].
Qed.


(** C7: a [span] without seed, called while nothing is bound, binds a
    context whose [parentId] is the all-zero invalid span id, whose
    [traceId] is the 32-character identifier [generateTraceId] produces at
    that moment, with [version = 0], [traceFlags = 0] and no trace state. *)
Theorem root_span_starts_trace {A} name (work : M T A) w :
  store w = None →
  ∃ (root : TraceContext T) (w_in : world T),
    span name work None w = around None work w_in ∧
    bound_context w_in = Some root ∧
    ctx_parentId root = INVALID_SPAN_ID ∧
    INVALID_SPAN_ID = "0000000000000000" ∧
    (∃ traceId,
       ctx_traceId root = Some traceId ∧
       (generateTraceId w).1 = Returned traceId ∧
       String.length traceId = 32) ∧
    ctx_version root = Int 0 ∧
    ctx_traceFlags root = Int 0 ∧
    ctx_traceState root = None.
Proof.
  intros Hnone.
  eexists _, _. split; [rewrite <- Hnone; by apply span_root_run|].
  split; [apply bound_context_new|].
  cbn -[hex_from_entropy].
  repeat split. eexists. split; [done|]. split; [done|].
  apply hex_from_entropy_length.
Qed.

(** *** Claims about the accessors and mutators *)

Lemma currentContextOrThrow_outside w :
  store w = None → currentContextOrThrow w = (Thrown NotInSpanError, w).
Proof. intros Hnone. unfold currentContextOrThrow. run_M. by rewrite Hnone. Qed.

(** What [isInsideOfTraceSpan] computes. *)
Lemma isInsideOfTraceSpan_unbound w :
  store w = None → isInsideOfTraceSpan w = (Returned false, w).
Proof. intros Hnone. unfold isInsideOfTraceSpan. run_M. by rewrite Hnone. Qed.

Lemma isInsideOfTraceSpan_bound w (c : TraceContext T) :
  bound_context w = Some c →
  isInsideOfTraceSpan w = (Returned (defined (ctx_traceId c)), w).
Proof.
  intros (p & Hp & Hc%list_lookup_total_correct)%bound_context_Some.
  unfold isInsideOfTraceSpan. run_M. rewrite Hp. cbn.
  by rewrite Hc, !andb_true_r.
Qed.

Lemma guarded_outside {A} (body : ref → M T A) w :
  store w = None → (currentContextOrThrow ≫= body) w = (Thrown NotInSpanError, w).
Proof.
  intros Hnone. unfold mbind, M_bind at 1.
  by rewrite currentContextOrThrow_outside.
Qed.

(** C6: with no context bound, each of the eleven accessors and mutators
    throws [NotInSpanError] and leaves the state, the store included, as it
    was.  [isInsideOfTraceSpan] always returns and never changes the state;
    it answers [false] when nothing is bound, [false] when the bound context
    has no [traceId], and [true] when the bound context has one ([parentId],
    [traceFlags] and [version] cannot be [undefined] in a context made by
    [buildTraceContext]). *)
Theorem outside_span_contract (f : string → string) w :
  store w = None →
  getSpanId w = (Thrown NotInSpanError, w) ∧
  getTrace w = (Thrown NotInSpanError, w) ∧
  getTraceString f w = (Thrown NotInSpanError, w) ∧
  getTraceChild w = (Thrown NotInSpanError, w) ∧
  getTraceChildString f w = (Thrown NotInSpanError, w) ∧
  getTraceState w = (Thrown NotInSpanError, w) ∧
  getTraceStateString w = (Thrown NotInSpanError, w) ∧
  getContextData w = (Thrown NotInSpanError, w) ∧
  (∀ data, setContextData data w = (Thrown NotInSpanError, w)) ∧
  (∀ key value, setTraceStateProperty key value w = (Thrown NotInSpanError, w)) ∧
  (∀ key, deleteTraceStateProperty key w = (Thrown NotInSpanError, w)) ∧
  isInsideOfTraceSpan w = (Returned false, w) ∧
  (∀ w' : world T,
     store w' = None → isInsideOfTraceSpan w' = (Returned false, w')) ∧
  (∀ (w' : world T) (c : TraceContext T),
     bound_context w' = Some c → ctx_traceId c = None →
     isInsideOfTraceSpan w' = (Returned false, w')) ∧
  (∀ (w' : world T) (c : TraceContext T) (traceId : string),
     bound_context w' = Some c → ctx_traceId c = Some traceId →
     isInsideOfTraceSpan w' = (Returned true, w')).
Proof.
  intros Hnone.
  assert (getTrace w = (Thrown NotInSpanError, w)) as HgetTrace
    by by apply guarded_outside.
  assert (getTraceChild w = (Thrown NotInSpanError, w)) as HgetTraceChild
    by by apply guarded_outside.
  assert (getTraceState w = (Thrown NotInSpanError, w)) as HgetTraceState
    by by apply guarded_outside.
  repeat split; intros; try by apply guarded_outside.
  - unfold getTraceString, mbind, M_bind at 1. by rewrite HgetTrace.
  - unfold getTraceChildString, mbind, M_bind at 1. by rewrite HgetTraceChild.
  - unfold getTraceStateString, mbind, M_bind at 1. by rewrite HgetTraceState.
  - by apply isInsideOfTraceSpan_unbound.
  - by apply isInsideOfTraceSpan_unbound.
  - erewrite isInsideOfTraceSpan_bound by done. by rewrite H0.
  - erewrite isInsideOfTraceSpan_bound by done. by rewrite H0.
Qed.

(** C9, as the code has it: in each of the three branches the context bound
    by [span] has a [parentId] (the invalid span id when the seed, or the
    enclosing context's [traceId], gives none), a [version] and [traceFlags]
    that are numbers, and as [traceId] what the seed holds, what the
    enclosing context holds, or a generated identifier.
    [isInsideOfTraceSpan], called by the traced function, returns [true]
    exactly when that [traceId] is defined, also after code that leaves the
    store and the bound [traceId] alone: always in a root span, and in the
    other two branches only if the seed, or the enclosing context, has a
    [traceId]. *)
Theorem span_context_defined_but_traceId {B} name (seed : option (Seed T))
    (before : M T B) w :
  keeps_bound_traceId before →
  ∃ (derived : TraceContext T) (w_in : world T),
    span name isInsideOfTraceSpan seed w = around (store w) isInsideOfTraceSpan w_in ∧
    bound_context w_in = Some derived ∧
    ctx_parentId derived =
      match seed, store w with
      | Some s, _ => default INVALID_SPAN_ID (seed_parentId s)
      | None, Some p => default INVALID_SPAN_ID (ctx_traceId (contexts w !!! p))
      | None, None => INVALID_SPAN_ID
      end ∧
    ctx_version derived =
      match seed, store w with
      | Some s, _ => Number (seed_version s)
      | None, Some p => ctx_version (contexts w !!! p)
      | None, None => Int 0
      end ∧
    ctx_traceFlags derived =
      match seed, store w with
      | Some s, _ => Number (seed_traceFlags s)
      | None, Some p => ctx_traceFlags (contexts w !!! p)
      | None, None => Int 0
      end ∧
    ctx_traceId derived =
      match seed, store w with
      | Some s, _ => seed_traceId s
      | None, Some p => ctx_traceId (contexts w !!! p)
      | None, None => Some (hex_from_entropy 16 w)
      end ∧
    (span name isInsideOfTraceSpan seed w).1 =
      Returned (bool_decide (is_Some (ctx_traceId derived))) ∧
    (∀ b, (span name (before;; isInsideOfTraceSpan) seed w).1 = Returned b →
          b = bool_decide (is_Some (ctx_traceId derived))).
Proof.
  intros Hkeeps.
  assert (∀ (derived : TraceContext T) (w_in : world T),
    bound_context w_in = Some derived →
    (isInsideOfTraceSpan w_in).1 =
      Returned (bool_decide (is_Some (ctx_traceId derived))) ∧
    (∀ b, ((before;; isInsideOfTraceSpan) w_in).1 = Returned b →
          b = bool_decide (is_Some (ctx_traceId derived)))) as Hinside.
  { intros derived w_in Hbound. split.
    - erewrite isInsideOfTraceSpan_bound by done. cbn.
      by destruct (ctx_traceId derived).
    - intros b. unfold mbind, M_bind.
      destruct (Hkeeps w_in) as [_ Hsame]. rewrite Hbound in Hsame.
      destruct (before w_in) as [[v|e] w1]; cbn in *; [|done].
      destruct (bound_context w1) as [c1|] eqn:Hbound1; [|done].
      injection Hsame as Hsame.
      erewrite isInsideOfTraceSpan_bound by done. cbn.
      intros [= <-]. rewrite Hsame. by destruct (ctx_traceId derived). }
  destruct seed as [s|]; [|destruct (store w) as [p|] eqn:Hp].
  - eexists _, _. split; [apply span_seed_run|].
    split; [apply bound_context_new|].
    do 4 (split; [reflexivity|]).
    rewrite !span_seed_run. unfold around; cbn [fst].
    apply Hinside, bound_context_new.
  - eexists _, _. split; [rewrite <- Hp; by apply span_nested_run|].
    split; [apply bound_context_new|].
    do 4 (split; [reflexivity|]).
    rewrite !(span_nested_run _ _ _ p) by done.
    unfold around; cbn [fst].
    apply Hinside, bound_context_new.
  - eexists _, _. split; [rewrite <- Hp; by apply span_root_run|].
    split; [apply bound_context_new|].
    do 4 (split; [reflexivity|]).
    rewrite !span_root_run by done.
    unfold around; cbn [fst].
    apply Hinside, bound_context_new.
Qed.

(** C10: with a seed, the bound context's [version] and [traceFlags] are
    [Number(seed.version)] and [Number(seed.traceFlags)].  [Number] keeps a
    number, turns every non-empty string of decimal digits into the number
    the digits denote (below 2^53, where this is exact), reads ['0x1f'] as
    31, the empty string as 0, and gives [NaN] for ['abc'] and for a missing
    field.  So with the strings ['00'] and ['01'] of a traceparent header
    the context holds the numbers 0 and 1, and the trace string of the span
    is [0-traceId-parentId-1], not [00-...-01]. *)
Theorem seed_version_and_flags_converted (f : string → string) name (s : Seed T) w :
  (span name getTrace (Some s) w).1 =
  Returned {| tr_traceId := seed_traceId s;
              tr_version := Number (seed_version s);
              tr_parentId := default INVALID_SPAN_ID (seed_parentId s);
              tr_traceFlags := Number (seed_traceFlags s) |} ∧
  (∀ n : number, Number (VNumber n) = n) ∧
  (∀ (digits : string) (d : Decimal.uint),
     digits ≠ "" →
     DecimalString.NilEmpty.uint_of_string digits = Some d →
     (N.of_uint d < two53)%N →
     Number (VString digits) = Int (Z.of_N (N.of_uint d))) ∧
  Number (VString "00") = Int 0 ∧
  Number (VString "01") = Int 1 ∧
  Number (VString "0x1f") = Int 31 ∧
  Number (VString "") = Int 0 ∧
  Number (VString "abc") = NaN ∧
  Number VUndefined = NaN ∧
  (seed_version s = VString "00" → seed_traceFlags s = VString "01" →
   (span name (getTraceString f) (Some s) w).1 =
   Returned ("0-" +:+ template_string (seed_traceId s) +:+ "-" +:+
             default INVALID_SPAN_ID (seed_parentId s) +:+ "-1")).
Proof.
  split.
  { rewrite span_seed_run. unfold around, getTrace. run_M.
    by rewrite list_lookup_total_middle. }
  split; [done|].
  split; [intros digits d; apply StringToNumber_digits|].
  do 6 (split; [reflexivity|]).
  intros Hversion Hflags.
  rewrite span_seed_run. unfold around, getTraceString, getTrace. run_M.
  rewrite list_lookup_total_middle by done.
  unfold buildTraceString. cbn -[hex_from_entropy].
  by rewrite Hversion, Hflags.
Qed.

(** *** The trace state *)

(** What [getTraceStateString] computes when the bound context holds a
    trace-state object: the object is frozen, and the entries, if there are
    any, are written [=key,value] and separated by commas. *)
Lemma getTraceStateString_run w p (c : TraceContext T) r (o : TraceStateObject) :
  store w = Some p → contexts w !! p = Some c →
  ctx_traceState c = Some r → objects w !! r = Some o →
  getTraceStateString w =
  (Returned (match Object_entries o with
             | [] => None
             | entries => Some (String.concat "," (equals_key_comma_value <$> entries))
             end),
   set_objects (<[r := object_freeze o]> (objects w)) w).
Proof.
  intros Hp Hc%list_lookup_total_correct Hr Ho.
  pose proof (lookup_lt_Some _ _ _ Ho) as Hlt.
  apply list_lookup_total_correct in Ho.
  unfold getTraceStateString, getTraceState. run_M.
  rewrite Hp. run_M. rewrite Hc, Hr. run_M. rewrite Ho.
  rewrite list_lookup_total_insert_eq by done.
  unfold Object_keys. rewrite length_fmap.
  change (Object_entries (object_freeze o)) with (Object_entries o).
  destruct (Object_entries o) as [|e entries] eqn:Hentries; [done|].
  cbn [length Nat.ltb Nat.leb].
  by rewrite reduce_entries_closed_form.
Qed.

(** Without a trace-state object the result is [undefined]. *)
Lemma getTraceStateString_absent w p (c : TraceContext T) :
  store w = Some p → contexts w !! p = Some c → ctx_traceState c = None →
  getTraceStateString w = (Returned None, w).
Proof.
  intros Hp Hc%list_lookup_total_correct Hr.
  unfold getTraceStateString, getTraceState. run_M.
  rewrite Hp. run_M. by rewrite Hc, Hr.
Qed.

(** Once [getTraceState] has handed the object out, no property of it can be
    set through the engine any more: the object itself was frozen. *)
Lemma setTraceStateProperty_after_getTraceState w p (c : TraceContext T) r
    (o : TraceStateObject) key value :
  store w = Some p → contexts w !! p = Some c →
  ctx_traceState c = Some r → objects w !! r = Some o →
  key ≠ "__proto__" →
  (getTraceState;; setTraceStateProperty key value) w =
  (Thrown TypeError, set_objects (<[r := object_freeze o]> (objects w)) w).
Proof.
  intros Hp Hc%list_lookup_total_correct Hr Ho Hkey.
  pose proof (lookup_lt_Some _ _ _ Ho) as Hlt.
  apply list_lookup_total_correct in Ho.
  unfold getTraceState, setTraceStateProperty. run_M.
  rewrite Hp. run_M. rewrite Hc, Hr. run_M. rewrite Ho, Hp. run_M.
  rewrite Hc, Hr. run_M.
  rewrite list_lookup_total_insert_eq by done.
  unfold object_set; cbn [props frozen object_freeze].
  destruct (own_property key (props o)); [done|].
  by rewrite (proj2 (String.eqb_neq _ _) Hkey).
Qed.

(** Without a read in between, the second [setTraceStateProperty] overwrites
    the value, as the test-suite expects. *)
Lemma setTraceStateProperty_twice (bytes : nat → Byte.byte) (v v2 : string) :
  ∃ w' : world T,
    span "s" (setTraceStateProperty "k" v;; setTraceStateProperty "k" v2)
      None (initial_world T bytes) = (Returned tt, w') ∧
    objects w' = [ {| props := [("k", v2)]; frozen := false |} ].
Proof.
  eexists. rewrite span_root_run by done.
  unfold around, setTraceStateProperty. run_M.
  split; reflexivity.
Qed.

(** C3: [setTraceStateProperty("k", v); getTraceState();
    setTraceStateProperty("k", v2)] inside a span: [getTraceState] freezes
    the object the context holds, so the second [setTraceStateProperty]
    throws a [TypeError] and the property keeps the value [v]. *)
Theorem set_after_getTraceState_throws (bytes : nat → Byte.byte) (v v2 : string) :
  ∃ w' : world T,
    span "s"
      (setTraceStateProperty "k" v;; getTraceState;;
       setTraceStateProperty "k" v2;; getTraceState)
      None (initial_world T bytes) = (Thrown TypeError, w') ∧
    objects w' = [ {| props := [("k", v)]; frozen := true |} ].
Proof.
  eexists. rewrite span_root_run by done.
  unfold around, setTraceStateProperty, getTraceState. run_M.
  split; reflexivity.
Qed.

Lemma object_set_frozen key value (o : TraceStateObject) :
  frozen o = true →
  object_set key value o =
  if bool_decide (own_property key (props o) = None ∧ key = "__proto__")
  then inr o else inl TypeError.
Proof.
  intros Hfrozen. unfold object_set. rewrite Hfrozen.
  destruct (own_property key (props o)) as [v|].
  - rewrite bool_decide_eq_false_2; [done | by intros [? _]].
  - destruct (String.eqb_spec key "__proto__") as [->|Hkey].
    + by rewrite bool_decide_eq_true_2.
    + rewrite bool_decide_eq_false_2; [done | by intros [_ ?]].
Qed.

Lemma object_delete_frozen key (o : TraceStateObject) :
  frozen o = true →
  object_delete key o =
  if bool_decide (own_property key (props o) = None) then inr o else inl TypeError.
Proof.
  intros Hfrozen. unfold object_delete. rewrite Hfrozen.
  by destruct (own_property key (props o)) as [v|].
Qed.

Lemma object_set_not_frozen key value (o : TraceStateObject) :
  frozen o = false → ∃ o', object_set key value o = inr o'.
Proof.
  intros Hfrozen. unfold object_set. rewrite Hfrozen.
  destruct (own_property key (props o)); [by eexists|].
  destruct (String.eqb key "__proto__"); by eexists.
Qed.

Lemma object_delete_not_frozen key (o : TraceStateObject) :
  frozen o = false → ∃ o', object_delete key o = inr o'.
Proof.
  intros Hfrozen. unfold object_delete. rewrite Hfrozen.
  destruct (own_property key (props o)); by eexists.
Qed.

(** C2, as the code has it: a span nested under [parent] gets a record of
    its own, and [setTraceStateProperty] / [deleteTraceStateProperty] in the
    child leave the parent's record as it was (and bound again afterwards);
    but the child's record refers to the parent's trace-state object [o], so
    the call has the outcome and the effect of [o[key] = value] (of
    [delete o[key]]) on the mapping the parent sees.  On a mapping that is
    not frozen the call returns and the mapping is the updated one.  On a
    frozen mapping nothing changes, and the call throws a [TypeError] unless
    there is nothing to change: deleting a key that is not there, or
    assigning [__proto__] when it is not an own property, returns. *)
Theorem nested_span_shares_trace_state name key value w p
    (parent : TraceContext T) r (o : TraceStateObject) :
  store w = Some p → contexts w !! p = Some parent →
  ctx_traceState parent = Some r → objects w !! r = Some o →
  let set_in_child := span name (setTraceStateProperty key value) None w in
  let delete_in_child := span name (deleteTraceStateProperty key) None w in
  let after_set := set_in_child.2 in
  let after_delete := delete_in_child.2 in
  (store after_set = Some p ∧
   contexts after_set !! p = Some parent ∧
   (∃ child, contexts after_set = (contexts w ++ [child])%list ∧
             ctx_traceState child = Some r) ∧
   objects after_set !! r =
     Some (match object_set key value o with inr o' => o' | inl _ => o end)) ∧
  (store after_delete = Some p ∧
   contexts after_delete !! p = Some parent ∧
   (∃ child, contexts after_delete = (contexts w ++ [child])%list ∧
             ctx_traceState child = Some r) ∧
   objects after_delete !! r =
     Some (match object_delete key o with inr o' => o' | inl _ => o end)) ∧
  set_in_child.1 =
    match object_set key value o with inr _ => Returned tt | inl e => Thrown e end ∧
  delete_in_child.1 =
    match object_delete key o with inr _ => Returned tt | inl e => Thrown e end ∧
  (frozen o = false →
   set_in_child.1 = Returned tt ∧ delete_in_child.1 = Returned tt) ∧
  (frozen o = true →
   objects after_set = objects w ∧ objects after_delete = objects w ∧
   set_in_child.1 =
     (if bool_decide (own_property key (props o) = None ∧ key = "__proto__")
      then Returned tt else Thrown TypeError) ∧
   delete_in_child.1 =
     (if bool_decide (own_property key (props o) = None)
      then Returned tt else Thrown TypeError)).
Proof.
  intros Hp Hparent Hr Ho.
  pose proof (lookup_lt_Some _ _ _ Ho) as Hlt.
  apply list_lookup_total_correct in Hparent as Hread.
  apply list_lookup_total_correct in Ho as Hobj.
  cbv zeta. rewrite !(span_nested_run _ _ _ p) by done.
  unfold around, setTraceStateProperty, deleteTraceStateProperty. run_M.
  rewrite !list_lookup_total_middle by done. cbn -[hex_from_entropy].
  rewrite Hread, Hr. cbn -[hex_from_entropy]. rewrite Hobj.
  split; [|split; [|split; [|split; [|split]]]].
  - destruct (object_set key value o) as [e|o']; cbn -[hex_from_entropy];
      (split; [done|]); (split; [by apply lookup_app_l_Some|]);
      (split; [by eexists|]); [done|].
    by apply list_lookup_insert_eq.
  - destruct (object_delete key o) as [e|o']; cbn -[hex_from_entropy];
      (split; [done|]); (split; [by apply lookup_app_l_Some|]);
      (split; [by eexists|]); [done|].
    by apply list_lookup_insert_eq.
  - by destruct (object_set key value o).
  - by destruct (object_delete key o).
  - intros Hfrozen.
    destruct (object_set_not_frozen key value o Hfrozen) as [o1 ->].
    by destruct (object_delete_not_frozen key o Hfrozen) as [o2 ->].
  - intros Hfrozen.
    rewrite (object_set_frozen key value o Hfrozen).
    rewrite (object_delete_frozen key o Hfrozen).
    do 2 case_bool_decide; cbn -[hex_from_entropy];
      rewrite ?list_insert_id by done; done.
Qed.

End Engine.

(** ** Formatting *)

(** C8: [buildTraceString] joins [version], [traceId], [parentId] and
    [traceFlags] with dashes, [version] and [traceFlags] being rendered by
    [toString(16)]: for natural numbers this is the lower-case hexadecimal
    numeral, which reads back as the number; the record
    [{version: 0, traceId: "T", parentId: "P", traceFlags: 1}] gives
    ["0-T-P-1"] (a [traceId] is written as it is; the template literal
    writes [undefined] for one that is missing).  The function depends on
    its argument only: it takes no state and returns none. *)
Theorem buildTraceString_format (f : string → string) :
  (∀ t : Trace,
     buildTraceString f t =
     toString16 f (tr_version t) +:+ "-" +:+ template_string (tr_traceId t) +:+
     "-" +:+ tr_parentId t +:+ "-" +:+ toString16 f (tr_traceFlags t)) ∧
  (∀ (version traceFlags : N) (traceId parentId : string),
     buildTraceString f {| tr_traceId := Some traceId;
                           tr_version := Int (Z.of_N version);
                           tr_parentId := parentId;
                           tr_traceFlags := Int (Z.of_N traceFlags) |} =
     hex_of_N version +:+ "-" +:+ traceId +:+ "-" +:+ parentId +:+ "-" +:+
     hex_of_N traceFlags ∧
     hex_value (hex_of_N version) = Some version ∧
     hex_value (hex_of_N traceFlags) = Some traceFlags) ∧
  buildTraceString f {| tr_traceId := Some "T"; tr_version := Int 0;
                        tr_parentId := "P"; tr_traceFlags := Int 1 |} = "0-T-P-1" ∧
  buildTraceString f {| tr_traceId := None; tr_version := Int 0;
                        tr_parentId := "P"; tr_traceFlags := Int 1 |} =
    "0-undefined-P-1".
Proof.
  split; [done|]. split; [|done].
  intros version traceFlags traceId parentId.
  unfold buildTraceString; cbn [tr_version tr_traceId tr_parentId tr_traceFlags].
  by rewrite !toString16_natural, !hex_value_hex_of_N.
Qed.

(** ** The claims on sample inputs *)

(** C1: on the trace state of the test-suite, [{ aStateKey: 'aStateValue' }],
    [getTraceStateString] returns ["=aStateKey,aStateValue"], where the
    [key=value] serialization is ["aStateKey=aStateValue"]. *)
Theorem getTraceStateString_of_test_state :
  (span "test span" getTraceStateString (Some test_seed) test_world).1 =
    Returned (Some "=aStateKey,aStateValue") ∧
  key_value_pairs (Object_entries test_state) = "aStateKey=aStateValue".
Proof. split; vm_compute; reflexivity. Qed.

(** C2, as stated, fails: in the world a parent span has set [k] in, a child
    span that sets [k2] changes the mapping the parent's context holds. *)
Lemma child_write_changes_parent_state :
  ¬ parent_untouched_by "child" (setTraceStateProperty "k2" "w") inside_parent.
Proof.
  intros Huntouched.
  destruct (Huntouched 0 (contexts inside_parent !!! 0) 0
              {| props := [("k", "v")]; frozen := false |}) as [_ Hstate];
    [vm_compute; reflexivity ..|].
  vm_compute in Hstate. discriminate Hstate.
Qed.

Lemma nested_span_shares_trace_state_witness :
  ∃ parent o,
    store inside_parent = Some 0 ∧ contexts inside_parent !! 0 = Some parent ∧
    ctx_traceState parent = Some 0 ∧ objects inside_parent !! 0 = Some o ∧
    objects (span "child" (setTraceStateProperty "k2" "w") None inside_parent).2 !! 0 =
      Some {| props := [("k", "v"); ("k2", "w")]; frozen := false |} ∧
    contexts (span "child" (setTraceStateProperty "k2" "w") None inside_parent).2 !! 0 =
      Some parent.
Proof.
  eexists _, _.
  split; [vm_compute; reflexivity|]. split; [vm_compute; reflexivity|].
  split; [vm_compute; reflexivity|]. split; [vm_compute; reflexivity|].
  destruct (nested_span_shares_trace_state (T:=unit) "child" "k2" "w" inside_parent 0
              (contexts inside_parent !!! 0) 0
              {| props := [("k", "v")]; frozen := false |})
    as [(_ & Hparent & _ & Hstate) _]; [vm_compute; reflexivity ..|].
  split; [exact Hstate | exact Hparent].
Defined.


Lemma root_span_starts_trace_witness :
  store (initial_world unit sample_bytes) = None ∧
  ∃ root w_in,
    span "s" getTrace None (initial_world unit sample_bytes) = around None getTrace w_in ∧
    bound_context w_in = Some root ∧
    ctx_parentId root = INVALID_SPAN_ID ∧
    ctx_version root = Int 0 ∧ ctx_traceFlags root = Int 0 ∧
    ctx_traceState root = None.
Proof.
  split; [reflexivity|].
  destruct (root_span_starts_trace (T:=unit) "s" getTrace
              (initial_world unit sample_bytes))
    as (root & w_in & Hrun & Hbound & HparentId & _ & _ & Hversion & Hflags & Hstate);
    [reflexivity|].
  by exists root, w_in.
Defined.

Lemma outside_span_contract_witness :
  store (initial_world unit sample_bytes) = None ∧
  getSpanId (initial_world unit sample_bytes) =
    (Thrown NotInSpanError, initial_world unit sample_bytes) ∧
  setTraceStateProperty "aKey" "aValue" (initial_world unit sample_bytes) =
    (Thrown NotInSpanError, initial_world unit sample_bytes) ∧
  isInsideOfTraceSpan (initial_world unit sample_bytes) =
    (Returned false, initial_world unit sample_bytes).
Proof.
  split; [reflexivity|].
  destruct (outside_span_contract (T:=unit) (λ s, s) (initial_world unit sample_bytes))
    as (HgetSpanId & _ & _ & _ & _ & _ & _ & _ & _ & Hset & _ & Hinside & _);
    [reflexivity|].
  split; [exact HgetSpanId|]. split; [exact (Hset "aKey" "aValue") | exact Hinside].
Defined.

(** C9, as stated, fails: inside a span opened with a seed that has no
    [traceId], [isInsideOfTraceSpan] returns [false]. *)
Lemma seed_without_traceId_not_inside :
  (span "s" isInsideOfTraceSpan (Some seed_without_traceId)
     (initial_world unit sample_bytes)).1 = Returned false.
Proof. vm_compute. reflexivity. Qed.

Lemma span_context_defined_but_traceId_witness :
  keeps_bound_traceId (T:=unit) (setTraceStateProperty "aKey" "aValue") ∧
  ∃ derived : TraceContext unit,
    ctx_traceId derived = Some "4bf92f3577b34da6a3ce929d0e0e4736" ∧
    ctx_parentId derived = "00f067aa0ba902b7" ∧
    (span "test span" isInsideOfTraceSpan (Some test_seed) test_world).1 =
      Returned (bool_decide (is_Some (ctx_traceId derived))).
Proof.
  split; [apply keeps_bound_traceId_setTraceStateProperty|].
  destruct (span_context_defined_but_traceId (T:=unit) "test span" (Some test_seed)
              (setTraceStateProperty "aKey" "aValue") test_world)
    as (derived & w_in & _ & _ & HparentId & _ & _ & HtraceId & Hinside & _);
    [apply keeps_bound_traceId_setTraceStateProperty|].
  exists derived. split; [exact HtraceId|]. split; [exact HparentId | exact Hinside].
Defined.

Lemma seed_version_and_flags_converted_witness :
  seed_version test_seed = VString "00" ∧
  seed_traceFlags test_seed = VString "01" ∧
  (span "test span" (getTraceString (λ s, s)) (Some test_seed) test_world).1 =
    Returned "0-4bf92f3577b34da6a3ce929d0e0e4736-00f067aa0ba902b7-1".
Proof.
  split; [reflexivity|]. split; [reflexivity|].
  destruct (seed_version_and_flags_converted (T:=unit) (λ s, s) "test span"
              test_seed test_world)
    as (_ & _ & _ & _ & _ & _ & _ & _ & _ & Hstring).
  exact (Hstring eq_refl eq_refl).
Defined.

(** * Further properties of the code *)

(** ** Identifiers *)

Lemma hex_byte_digits (b : Byte.byte) :
  let hi := lower_char (hex_digit (Byte.to_nat b / 16)) in
  let lo := lower_char (hex_digit (Byte.to_nat b mod 16)) in
  is_hex_digit hi = true ∧ is_hex_digit lo = true ∧
  (h ← hex_digit_value hi; l ← hex_digit_value lo; Byte.of_nat (16 * h + l)) = Some b.
Proof. destruct b; vm_compute; done. Qed.

Lemma hex_string_digits (bytes : list Byte.byte) :
  string_forallb is_hex_digit (toLowerCase (Buffer_toString_hex bytes)) = true.
Proof.
  induction bytes as [|b bytes IH]; [done|].
  destruct (hex_byte_digits b) as (Hhi & Hlo & _).
  cbn [Buffer_toString_hex toLowerCase string_forallb].
  by rewrite Hhi, Hlo, IH.
Qed.

Lemma hex_decode_encode (bytes : list Byte.byte) :
  hex_decode (toLowerCase (Buffer_toString_hex bytes)) = Some bytes.
Proof.
  induction bytes as [|b bytes IH]; [done|].
  destruct (hex_byte_digits b) as (_ & _ & Hbyte).
  cbn [Buffer_toString_hex toLowerCase hex_decode].
  rewrite IH.
  destruct (hex_digit_value (lower_char (hex_digit (Byte.to_nat b / 16)))) as [h|];
    [|done].
  destruct (hex_digit_value (lower_char (hex_digit (Byte.to_nat b mod 16)))) as [l|];
    [|done].
  cbn in Hbyte |- *. by rewrite Hbyte.
Qed.

(** ** Trace-state objects as maps *)

Lemma own_property_None (key : string) (ps : list (string * string)) :
  own_property key ps = None ↔ key ∉ fst <$> ps.
Proof.
  induction ps as [|[k v] ps IH]; cbn.
  - split; [intros _; apply not_elem_of_nil | done].
  - rewrite not_elem_of_cons, <- IH.
    destruct (String.eqb_spec k key) as [->|Hne].
    + split; [done | by intros [? _]].
    + split; [intros Hown; split; [congruence | done] | by intros [_ ?]].
Qed.

Lemma own_property_update_eq (key value : string) (ps : list (string * string)) :
  is_Some (own_property key ps) →
  own_property key (update_property key value ps) = Some value.
Proof.
  induction ps as [|[k v] ps IH]; cbn; [by intros [? ?]|].
  destruct (String.eqb_spec k key) as [->|Hne]; cbn.
  - by rewrite String.eqb_refl.
  - intros Hown. by rewrite (proj2 (String.eqb_neq _ _) Hne), IH.
Qed.

Lemma own_property_update_ne (key value other : string) (ps : list (string * string)) :
  other ≠ key →
  own_property other (update_property key value ps) = own_property other ps.
Proof.
  intros Hother. induction ps as [|[k v] ps IH]; cbn; [done|].
  destruct (String.eqb_spec k key) as [->|Hne]; cbn.
  - destruct (String.eqb_spec key other) as [->|_]; done.
  - by rewrite IH.
Qed.

Lemma own_property_app (key value other : string) (ps : list (string * string)) :
  own_property other (ps ++ [(key, value)]) =
  match own_property other ps with
  | Some v => Some v
  | None => if String.eqb key other then Some value else None
  end.
Proof.
  induction ps as [|[k v] ps IH]; cbn; [done|].
  by destruct (String.eqb k other).
Qed.

Lemma update_property_keys (key value : string) (ps : list (string * string)) :
  fst <$> update_property key value ps = fst <$> ps.
Proof.
  induction ps as [|[k v] ps IH]; cbn; [done|].
  destruct (String.eqb k key); cbn; [done | by rewrite IH].
Qed.

Lemma remove_property_keys (key other : string) (ps : list (string * string)) :
  other ∈ fst <$> remove_property key ps → other ∈ fst <$> ps.
Proof.
  induction ps as [|[k v] ps IH]; cbn; [done|].
  destruct (String.eqb k key); cbn.
  - intros Hin. apply elem_of_cons. by right.
  - rewrite !elem_of_cons. intros [->|Hin]; [by left | right; by apply IH].
Qed.

Lemma own_property_remove_eq (key : string) (ps : list (string * string)) :
  NoDup (fst <$> ps) → own_property key (remove_property key ps) = None.
Proof.
  induction ps as [|[k v] ps IH]; cbn; [done|].
  intros [Hk Hps]%list.NoDup_cons.
  destruct (String.eqb_spec k key) as [->|Hne]; cbn.
  - by apply own_property_None.
  - by rewrite (proj2 (String.eqb_neq _ _) Hne), IH.
Qed.

Lemma own_property_remove_ne (key other : string) (ps : list (string * string)) :
  other ≠ key →
  own_property other (remove_property key ps) = own_property other ps.
Proof.
  intros Hother. induction ps as [|[k v] ps IH]; cbn; [done|].
  destruct (String.eqb_spec k key) as [->|Hne]; cbn.
  - destruct (String.eqb_spec key other) as [->|_]; done.
  - by rewrite IH.
Qed.

Lemma remove_property_NoDup (key : string) (ps : list (string * string)) :
  NoDup (fst <$> ps) → NoDup (fst <$> remove_property key ps).
Proof.
  induction ps as [|[k v] ps IH]; cbn; [done|].
  intros [Hk Hps]%list.NoDup_cons.
  destruct (String.eqb k key); cbn; [done|].
  apply list.NoDup_cons. split; [|by apply IH].
  intros Hin. by apply Hk, (remove_property_keys key).
Qed.

Lemma object_set_unique_keys (key value : string) (o o' : TraceStateObject) :
  unique_keys o → object_set key value o = inr o' → unique_keys o'.
Proof.
  unfold unique_keys, object_set. intros Ho.
  destruct (own_property key (props o)) as [v|] eqn:Hown.
  - destruct (frozen o); [done|]. intros [= <-]; cbn.
    by rewrite update_property_keys.
  - destruct (String.eqb key "__proto__"); [by intros [= <-]|].
    destruct (frozen o); [done|]. intros [= <-]; cbn.
    rewrite fmap_app. apply list.NoDup_app. split; [done|].
    split; [|apply NoDup_singleton].
    intros k Hk ->%list_elem_of_singleton. by apply own_property_None in Hown.
Qed.

Lemma object_delete_unique_keys (key : string) (o o' : TraceStateObject) :
  unique_keys o → object_delete key o = inr o' → unique_keys o'.
Proof.
  unfold unique_keys, object_delete. intros Ho.
  destruct (own_property key (props o)); [|by intros [= <-]].
  destruct (frozen o); [done|]. intros [= <-]; cbn.
  by apply remove_property_NoDup.
Qed.

Lemma insert_by_index_Permutation (n : N) (e : string * string)
    (sorted : list (N * (string * string))) :
  snd <$> insert_by_index n e sorted ≡ₚ e :: (snd <$> sorted).
Proof.
  induction sorted as [|[m e'] sorted IH]; cbn; [done|].
  destruct (n <? m)%N; cbn; [done|].
  rewrite IH. apply Permutation_swap.
Qed.

Lemma index_entries_Permutation (ps : list (string * string)) :
  snd <$> index_entries ps ≡ₚ filter (λ e, ¬ array_index e.1 = None) ps.
Proof.
  induction ps as [|[k v] ps IH]; [done|].
  cbn [index_entries].
  destruct (array_index k) as [n|] eqn:Hindex.
  - rewrite insert_by_index_Permutation, IH, filter_cons_True; [done|].
    cbn. by rewrite Hindex.
  - rewrite IH, filter_cons_False; [done|].
    cbn. rewrite Hindex. by intros [].
Qed.

(** [Object.entries] lists every property exactly once. *)
Lemma Object_entries_Permutation (o : TraceStateObject) :
  Object_entries o ≡ₚ props o.
Proof.
  unfold Object_entries, named_entries.
  rewrite index_entries_Permutation, (comm (++)).
  apply filter_app_complement.
Qed.

Section Coverage.
Context {T : Type} `{!Payload T}.
Implicit Types (w : world T) (name key value : string) (p r : ref).

(** X1: [generateRandomBytesHexString(length)] returns a string of
    [2 * length] characters, all of them in [0-9a-f], consumes exactly
    [length] bytes of randomness and touches nothing else; so a trace id has
    32 characters and a span id 16. *)
Theorem generated_id_shape (n : nat) w :
  ∃ id : string,
    generateRandomBytesHexString n w = (Returned id, set_drawn (drawn w + n) w) ∧
    String.length id = 2 * n ∧
    string_forallb is_hex_digit id = true ∧
    (∃ traceId, (generateTraceId w).1 = Returned traceId ∧ String.length traceId = 32) ∧
    (∃ spanId, (generateSpanId w).1 = Returned spanId ∧ String.length spanId = 16).
Proof.
  exists (hex_from_entropy n w). split; [done|].
  split; [apply hex_from_entropy_length|].
  split; [apply hex_string_digits|].
  split; eexists; (split; [reflexivity | apply hex_from_entropy_length]).
Qed.

(** X2: the identifier is an injective encoding of the random bytes: reading
    the hex string back gives exactly the bytes [randomBytes] delivered, so two
    identifiers are equal only if the bytes behind them are. *)
Theorem generated_id_decodes (n : nat) w :
  ∃ (bytes : list Byte.byte) (id : string),
    (randomBytes n w).1 = Returned bytes ∧
    (generateRandomBytesHexString n w).1 = Returned id ∧
    length bytes = n ∧
    hex_decode id = Some bytes.
Proof.
  eexists _, _. split; [reflexivity|]. split; [reflexivity|].
  split; [by rewrite length_fmap, length_seq|].
  apply hex_decode_encode.
Qed.

(** ** Inside a span *)

Ltac exec :=
  unfold asyncLocalStorage_run, finally, buildTraceContext, new_context,
    read_context, write_context, read_object, write_object, new_object,
    currentContextOrThrow, getStore, modify_world, get_world, around,
    mbind, M_bind, mret, M_ret, mthrow, M_throw;
  cbn -[hex_from_entropy generateSpanId generateTraceId span].

Ltac unfold_ops :=
  unfold isInsideOfTraceSpan, getTraceString, getTraceChildString,
    getTraceStateString;
  unfold getSpanId, getTrace, getTraceChild, getTraceState, getContextData,
    setContextData, setTraceStateProperty, deleteTraceStateProperty.

(** X3: inside any span, the parent id of [getTraceChild()] is the span's own
    [getSpanId()], and its trace id, version and flags are those of
    [getTrace()]. *)
Theorem trace_child_points_to_span name (seed : option (Seed T)) w :
  ∃ (id : string) (t tc : Trace),
    (span name (id ← getSpanId; t ← getTrace; tc ← getTraceChild; mret (id, t, tc))
       seed w).1 = Returned (id, t, tc) ∧
    tr_parentId tc = id ∧
    tr_traceId tc = tr_traceId t ∧
    tr_version tc = tr_version t ∧
    tr_traceFlags tc = tr_traceFlags t.
Proof.
  destruct (span_run name
    (id ← getSpanId; t ← getTrace; tc ← getTraceChild; mret (id, t, tc)) seed w)
    as (derived & n & ->).
  unfold_ops. exec. eexists _, _, _. split; [reflexivity|]. done.
Qed.

(** *** What each operation does when a context is bound *)

Lemma getSpanId_bound w p :
  store w = Some p → getSpanId w = (Returned (ctx_id (contexts w !!! p)), w).
Proof. intros Hp. unfold_ops. exec. by rewrite Hp. Qed.

Lemma getTrace_bound w p :
  store w = Some p →
  getTrace w =
  (Returned {| tr_traceId := ctx_traceId (contexts w !!! p);
               tr_version := ctx_version (contexts w !!! p);
               tr_parentId := ctx_parentId (contexts w !!! p);
               tr_traceFlags := ctx_traceFlags (contexts w !!! p) |}, w).
Proof. intros Hp. unfold_ops. exec. by rewrite Hp. Qed.

Lemma getTraceChild_bound w p :
  store w = Some p →
  getTraceChild w =
  (Returned {| tr_traceId := ctx_traceId (contexts w !!! p);
               tr_version := ctx_version (contexts w !!! p);
               tr_parentId := ctx_id (contexts w !!! p);
               tr_traceFlags := ctx_traceFlags (contexts w !!! p) |}, w).
Proof. intros Hp. unfold_ops. exec. by rewrite Hp. Qed.

Lemma getContextData_bound w p :
  store w = Some p →
  getContextData w =
  match ctx_data (contexts w !!! p) with
  | Some data =>
    match kind_of data with
    | PrimitiveValue => (Returned (Some data), w)
    | OrdinaryObject => (Returned (Some data), mark_frozen data w)
    | ViewWithElements => (Thrown TypeError, w)
    end
  | None => (Returned None, w)
  end.
Proof.
  intros Hp. unfold_ops. exec. rewrite Hp. exec.
  destruct (ctx_data _) as [data|]; [|done].
  unfold Object_freeze_payload. by destruct (kind_of data).
Qed.

Lemma getContextData_result w p :
  store w = Some p →
  (getContextData w).1 = frozen_or_null (ctx_data (contexts w !!! p)).
Proof.
  intros Hp. rewrite (getContextData_bound _ p) by done. unfold frozen_or_null.
  destruct (ctx_data _) as [data|]; [|done]. by destruct (kind_of data).
Qed.

Lemma mark_frozen_fields (data : T) w :
  contexts (mark_frozen data w) = contexts w ∧
  objects (mark_frozen data w) = objects w ∧
  store (mark_frozen data w) = store w ∧
  entropy (mark_frozen data w) = entropy w ∧
  drawn (mark_frozen data w) = drawn w ∧
  ∀ d, d ∈ frozen_payloads (mark_frozen data w) ↔ d ∈ frozen_payloads w ∨ d = data.
Proof.
  unfold mark_frozen. case_decide; cbn; repeat split; try done.
  - by left.
  - by intros [?| ->].
  - intros [->|?]%elem_of_cons; [by right | by left].
  - intros [?| ->]; apply elem_of_cons; [by right | by left].
Qed.

Lemma setContextData_bound (data : option T) w p :
  store w = Some p →
  setContextData data w =
  (Returned tt, set_contexts (<[p := with_data data (contexts w !!! p)]> (contexts w)) w).
Proof. intros Hp. unfold_ops. exec. by rewrite Hp. Qed.

Lemma getTraceState_bound w p :
  store w = Some p →
  getTraceState w =
  match ctx_traceState (contexts w !!! p) with
  | Some r =>
    (Returned (Some r),
     set_objects (<[r := object_freeze (objects w !!! r)]> (objects w)) w)
  | None => (Returned None, w)
  end.
Proof.
  intros Hp. unfold_ops. exec. rewrite Hp. exec.
  by destruct (ctx_traceState _).
Qed.

Lemma setTraceStateProperty_bound key value w p r :
  store w = Some p → ctx_traceState (contexts w !!! p) = Some r →
  setTraceStateProperty key value w =
  match object_set key value (objects w !!! r) with
  | inr o' => (Returned tt, set_objects (<[r := o']> (objects w)) w)
  | inl e => (Thrown e, w)
  end.
Proof.
  intros Hp Hr. unfold_ops. exec. rewrite Hp. exec. rewrite Hr. exec.
  by destruct (object_set _ _ _).
Qed.

Lemma deleteTraceStateProperty_bound key w p :
  store w = Some p →
  deleteTraceStateProperty key w =
  match ctx_traceState (contexts w !!! p) with
  | Some r =>
    match object_delete key (objects w !!! r) with
    | inr o' => (Returned tt, set_objects (<[r := o']> (objects w)) w)
    | inl e => (Thrown e, w)
    end
  | None => (Returned tt, w)
  end.
Proof.
  intros Hp. unfold_ops. exec. rewrite Hp. exec.
  destruct (ctx_traceState _); [|done]. exec.
  by destruct (object_delete _ _).
Qed.

Lemma set_objects_same w r (o : TraceStateObject) :
  objects w !! r = Some o → set_objects (<[r := o]> (objects w)) w = w.
Proof. intros Ho. rewrite list_insert_id by done. by destruct w. Qed.

(** *** Trace strings *)

(** X4: in a span opened with no seed while nothing is bound, the trace
    string is ["0-" traceId "-0000000000000000-0"] and the child trace string
    is ["0-" traceId "-" spanId "-0"]: version and flags are written as the
    single digit [0]. *)
Theorem root_span_trace_strings (f : string → string) name w :
  store w = None →
  ∃ traceId spanId : string,
    (generateTraceId w).1 = Returned traceId ∧
    (span name
       (s ← getTraceString f; c ← getTraceChildString f; id ← getSpanId;
        mret (s, c, id)) None w).1 =
    Returned ("0-" +:+ traceId +:+ "-0000000000000000-0",
              "0-" +:+ traceId +:+ "-" +:+ spanId +:+ "-0", spanId).
Proof.
  intros Hnone. eexists _, _. split; [reflexivity|].
  rewrite span_root_run by done.
  unfold around. unfold_ops. exec.
  rewrite !list_lookup_total_middle by done.
  reflexivity.
Qed.

(** *** The payload *)

(** X5: inside any span, [getContextData()] first gives the seed's [data]
    (nothing without a seed, also when the span is nested), and after
    [setContextData] the value set last: the data is replaced, not merged.
    What it gives is [Object.freeze] of that data: the data itself, which is
    frozen from then on if it is an object, or a [TypeError] if it is an
    array-buffer view with elements. *)
Theorem context_data_is_replaced name (seed : option (Seed T))
    (first second : option T) w :
  let replaced :=
    span name (setContextData first;; setContextData second;; getContextData) seed w in
  (span name getContextData seed w).1 = frozen_or_null (seed ≫= seed_data) ∧
  replaced.1 = frozen_or_null second ∧
  (∀ data, second = Some data → kind_of data = OrdinaryObject →
     data ∈ frozen_payloads replaced.2) ∧
  (∀ data, data ∈ frozen_payloads replaced.2 →
     data ∈ frozen_payloads w ∨ second = Some data).
Proof.
  cbv zeta. split.
  { destruct seed as [s|]; [|destruct (store w) as [p|] eqn:Hp].
    - rewrite span_seed_run. unfold around; cbn [fst].
      rewrite (getContextData_result _ (length (contexts w))) by done.
      cbn. by rewrite list_lookup_total_middle.
    - rewrite (span_nested_run _ _ _ p) by done. unfold around; cbn [fst].
      rewrite (getContextData_result _ (length (contexts w))) by done.
      cbn -[hex_from_entropy]. by rewrite list_lookup_total_middle.
    - rewrite span_root_run by done. unfold around; cbn [fst].
      rewrite (getContextData_result _ (length (contexts w))) by done.
      cbn -[hex_from_entropy]. by rewrite list_lookup_total_middle. }
  destruct (span_run name
    (setContextData first;; setContextData second;; getContextData) seed w)
    as (derived & n & ->).
  unfold around. cbn [fst snd].
  match goal with |- context [(?work ?w_in).1] =>
    assert (∃ w2,
      frozen_payloads w2 = frozen_payloads w ∧
      work w_in =
      match second with
      | Some data =>
        match kind_of data with
        | PrimitiveValue => (Returned (Some data), w2)
        | OrdinaryObject => (Returned (Some data), mark_frozen data w2)
        | ViewWithElements => (Thrown TypeError, w2)
        end
      | None => (Returned None, w2)
      end) as (w2 & Hfrozen & ->)
  end.
  { eexists. split; [|
      unfold mbind at 1, M_bind at 1;
      rewrite (setContextData_bound _ _ (length (contexts w))) by done;
      unfold mbind at 1, M_bind at 1;
      rewrite (setContextData_bound _ _ (length (contexts w))) by done;
      rewrite (getContextData_bound _ (length (contexts w))) by done;
      cbn [contexts set_contexts];
      rewrite list_lookup_total_insert_eq
        by (rewrite length_insert, length_app; cbn; lia);
      cbn [ctx_data with_data]; reflexivity].
    reflexivity. }
  unfold frozen_or_null.
  destruct second as [data|]; [|by repeat split; cbn; rewrite ?Hfrozen; [|left]].
  destruct (kind_of data) eqn:Hkind; cbn [fst snd].
  - split; [done|]. split; [by intros ? [= <-]; rewrite Hkind|].
    cbn. rewrite Hfrozen. by left.
  - split; [done|]. split.
    + intros ? [= <-] _. cbn. apply mark_frozen_fields. by right.
    + intros d Hd. cbn in Hd. apply mark_frozen_fields in Hd as [Hd| ->];
        [left; by rewrite <- Hfrozen | by right].
  - split; [done|]. split; [by intros ? [= <-]; rewrite Hkind|].
    cbn. rewrite Hfrozen. by left.
Qed.

(** X6: a nested span does not see the parent's [data], and what the child
    sets with [setContextData] is not seen by the parent: once the child has
    returned, the parent's context is bound again with the data it had, and
    [getContextData()] gives [Object.freeze] of that data. *)
Theorem child_data_is_its_own name (data : option T) w (parent : TraceContext T) :
  bound_context w = Some parent →
  (span name getContextData None w).1 = Returned None ∧
  bound_context (span name (setContextData data) None w).2 = Some parent ∧
  ((span name (setContextData data) None;; getContextData) w).1 =
    frozen_or_null (ctx_data parent).
Proof.
  intros (p & Hp & Hparent)%bound_context_Some.
  pose proof (lookup_lt_Some _ _ _ Hparent) as Hlt.
  assert (bound_context (span name (setContextData data) None w).2 = Some parent)
    as Hbound.
  { rewrite (span_nested_run _ _ _ p) by done. unfold around.
    rewrite (setContextData_bound _ _ (length (contexts w))) by done.
    apply bound_context_Some. exists p. split; [done|]. cbn -[hex_from_entropy].
    rewrite list_lookup_insert_ne by lia. by apply lookup_app_l_Some. }
  split; [|split; [done|]].
  - rewrite (span_nested_run _ _ _ p) by done. unfold around; cbn [fst].
    rewrite (getContextData_result _ (length (contexts w))) by done.
    cbn -[hex_from_entropy]. by rewrite list_lookup_total_middle.
  - apply bound_context_Some in Hbound as (p' & Hp' & Hparent').
    unfold mbind, M_bind.
    destruct (span name (setContextData data) None w) as [[[]|e] w'] eqn:Hspan.
    + cbn in *. rewrite (getContextData_result _ p') by done.
      by rewrite (list_lookup_total_correct _ _ _ Hparent').
    + exfalso. rewrite (span_nested_run _ _ _ p) in Hspan by done.
      unfold around in Hspan.
      rewrite (setContextData_bound _ _ (length (contexts w))) in Hspan by done.
      done.
Qed.

(** *** The trace state *)

Lemma object_set_unfrozen key value (o : TraceStateObject) :
  frozen o = false → key ≠ "__proto__" →
  ∃ o', object_set key value o = inr o' ∧
        own_property key (props o') = Some value ∧
        (∀ other, other ≠ key →
           own_property other (props o') = own_property other (props o)) ∧
        frozen o' = false.
Proof.
  intros Hfrozen Hkey. unfold object_set. rewrite Hfrozen.
  rewrite (proj2 (String.eqb_neq _ _) Hkey).
  destruct (own_property key (props o)) as [v|] eqn:Hown; eexists;
    (split; [reflexivity|]); cbn.
  - split; [by apply own_property_update_eq; rewrite Hown|].
    split; [|done]. intros other Hother. by apply own_property_update_ne.
  - rewrite own_property_app, Hown, String.eqb_refl.
    split; [done|]. split; [|done]. intros other Hother.
    rewrite own_property_app.
    destruct (own_property other (props o)); [done|].
    by rewrite (proj2 (String.eqb_neq _ _)).
Qed.

(** X7: when the bound context has no trace state, [setTraceStateProperty]
    creates the mapping with that one property and attaches it to the context
    (whose other fields stay as they were); [getTraceState()] then hands out
    that object. *)
Theorem setTraceStateProperty_creates_mapping key value w p (c : TraceContext T) :
  store w = Some p → contexts w !! p = Some c → ctx_traceState c = None →
  key ≠ "__proto__" →
  ∃ w' : world T,
    setTraceStateProperty key value w = (Returned tt, w') ∧
    objects w' =
      (objects w ++ [ {| props := [(key, value)]; frozen := false |} ])%list ∧
    bound_context w' = Some (with_traceState (Some (length (objects w))) c) ∧
    (getTraceState w').1 = Returned (Some (length (objects w))).
Proof.
  intros Hp Hc Hstate Hkey.
  pose proof (lookup_lt_Some _ _ _ Hc) as Hlt.
  apply list_lookup_total_correct in Hc as Hread.
  eexists. unfold_ops. exec. rewrite Hp. exec. rewrite Hread, Hstate. exec.
  rewrite list_lookup_total_middle by done.
  unfold object_set; cbn. rewrite (proj2 (String.eqb_neq _ _) Hkey). cbn.
  split; [reflexivity|]. cbn.
  rewrite insert_app_r_alt, Nat.sub_diag by done. cbn [list_insert].
  split; [done|]. split.
  - rewrite Hp. cbn. by apply list_lookup_insert_eq.
  - rewrite Hp. cbn. by rewrite list_lookup_total_insert_eq.
Qed.

(** X8: on a mapping that is not frozen, [setTraceStateProperty(key, value)]
    returns, the mapping then has [key] with [value], every other key keeps
    its value, and nothing else in the heap changes. *)
Theorem setTraceStateProperty_then_lookup key value w p (c : TraceContext T) r
    (o : TraceStateObject) :
  store w = Some p → contexts w !! p = Some c →
  ctx_traceState c = Some r → objects w !! r = Some o →
  frozen o = false → key ≠ "__proto__" →
  ∃ o' : TraceStateObject,
    setTraceStateProperty key value w =
      (Returned tt, set_objects (<[r := o']> (objects w)) w) ∧
    own_property key (props o') = Some value ∧
    (∀ other, other ≠ key →
       own_property other (props o') = own_property other (props o)) ∧
    frozen o' = false.
Proof.
  intros Hp Hc%list_lookup_total_correct Hr Ho%list_lookup_total_correct Hfrozen Hkey.
  destruct (object_set_unfrozen key value o Hfrozen Hkey) as (o' & Hset & Hrest).
  exists o'. split; [|done].
  rewrite (setTraceStateProperty_bound _ _ _ p r) by by rewrite ?Hc.
  by rewrite Ho, Hset.
Qed.

(** X9: [deleteTraceStateProperty] of something that is not there does
    nothing and does not throw: when the context has no trace state, and when
    the mapping (frozen or not) does not have the key. *)
Theorem deleteTraceStateProperty_absent key w p (c : TraceContext T) :
  store w = Some p → contexts w !! p = Some c →
  (∀ r o, ctx_traceState c = Some r → objects w !! r = Some o →
          own_property key (props o) = None) →
  deleteTraceStateProperty key w = (Returned tt, w).
Proof.
  intros Hp Hc%list_lookup_total_correct Habsent.
  rewrite (deleteTraceStateProperty_bound _ _ p) by done. rewrite Hc.
  destruct (ctx_traceState c) as [r|] eqn:Hr; [|done].
  destruct (objects w !! r) as [o|] eqn:Ho.
  - rewrite (list_lookup_total_correct _ _ _ Ho).
    unfold object_delete. rewrite (Habsent r o) by done.
    by rewrite set_objects_same.
  - rewrite list_lookup_total_alt, Ho. cbn.
    rewrite list_insert_ge by by apply lookup_ge_None. by destruct w.
Qed.

(** X10: on a mapping that is not frozen, [deleteTraceStateProperty(key)] of
    a key that is there removes it: the key is gone, every other key keeps
    its value, and nothing else in the heap changes. *)
Theorem deleteTraceStateProperty_present key w p (c : TraceContext T) r
    (o : TraceStateObject) :
  store w = Some p → contexts w !! p = Some c →
  ctx_traceState c = Some r → objects w !! r = Some o →
  is_Some (own_property key (props o)) → frozen o = false → unique_keys o →
  ∃ o' : TraceStateObject,
    deleteTraceStateProperty key w =
      (Returned tt, set_objects (<[r := o']> (objects w)) w) ∧
    own_property key (props o') = None ∧
    (∀ other, other ≠ key →
       own_property other (props o') = own_property other (props o)) ∧
    frozen o' = false.
Proof.
  intros Hp Hc%list_lookup_total_correct Hr Ho%list_lookup_total_correct
    [v Hown] Hfrozen Hunique.
  rewrite (deleteTraceStateProperty_bound _ _ p) by done. rewrite Hc, Hr, Ho.
  unfold object_delete. rewrite Hown, Hfrozen.
  eexists. split; [reflexivity|]. cbn.
  split; [by apply own_property_remove_eq|].
  split; [|done]. intros other Hother. by apply own_property_remove_ne.
Qed.

(** X11: once [getTraceState()] has been called, [deleteTraceStateProperty]
    of a key that is there throws a [TypeError] and removes nothing (the
    mapping was frozen); of a key that is not there it still returns. *)
Theorem deleteTraceStateProperty_after_getTraceState key w p (c : TraceContext T)
    r (o : TraceStateObject) :
  store w = Some p → contexts w !! p = Some c →
  ctx_traceState c = Some r → objects w !! r = Some o →
  (getTraceState;; deleteTraceStateProperty key) w =
  (match own_property key (props o) with
   | Some _ => Thrown TypeError
   | None => Returned tt
   end,
   set_objects (<[r := object_freeze o]> (objects w)) w).
Proof.
  intros Hp Hc%list_lookup_total_correct Hr Ho.
  pose proof (lookup_lt_Some _ _ _ Ho) as Hlt.
  apply list_lookup_total_correct in Ho.
  unfold mbind, M_bind.
  rewrite (getTraceState_bound _ p) by done. rewrite Hc, Hr, Ho.
  rewrite (deleteTraceStateProperty_bound _ _ p) by done.
  cbn [contexts objects set_objects]. rewrite Hc, Hr.
  rewrite list_lookup_total_insert_eq by done.
  unfold object_delete; cbn.
  destruct (own_property key (props o)); [done|].
  cbn. by rewrite list_insert_insert_eq.
Qed.

(** *** Invariants of the heap *)

Lemma unique_keys_lookup_total (os : list TraceStateObject) r :
  Forall unique_keys os → unique_keys (os !!! r).
Proof.
  intros Hos. rewrite list_lookup_total_alt.
  destruct (os !! r) as [o|] eqn:Ho; cbn.
  - by eapply Forall_lookup_1.
  - apply NoDup_nil_2.
Qed.

Lemma getTraceStateString_world w :
  (getTraceStateString w).2 = (getTraceState w).2.
Proof.
  unfold getTraceStateString, mbind, M_bind.
  destruct (getTraceState w) as [[[r|]|e] w1]; [|done..].
  exec. by case_match.
Qed.

Lemma getTraceState_objects_wf w : objects_wf w → objects_wf (getTraceState w).2.
Proof.
  intros Hwf. destruct (store w) as [p|] eqn:Hp.
  - rewrite (getTraceState_bound _ p) by done.
    destruct (ctx_traceState _) as [r|]; [|done].
    apply Forall_insert; [done|]. by apply (unique_keys_lookup_total _ r).
  - unfold getTraceState. by rewrite guarded_outside.
Qed.

(** X12: no operation of the engine gives a trace-state object two
    properties with the same key: if every object of the heap has unique
    keys, it still has after [setTraceStateProperty],
    [deleteTraceStateProperty], [getTraceState] and [getTraceStateString], and
    after a [span] around code that keeps them unique. *)
Theorem trace_state_keys_stay_unique key value w :
  objects_wf w →
  objects_wf (setTraceStateProperty key value w).2 ∧
  objects_wf (deleteTraceStateProperty key w).2 ∧
  objects_wf (getTraceState w).2 ∧
  objects_wf (getTraceStateString w).2 ∧
  (∀ A name (work : M T A) (seed : option (Seed T)),
     (∀ w0, objects_wf w0 → objects_wf (work w0).2) →
     objects_wf (span name work seed w).2).
Proof.
  intros Hwf.
  split; [|split; [|split; [|split]]].
  - destruct (store w) as [p|] eqn:Hp;
      [|unfold setTraceStateProperty; by rewrite guarded_outside].
    destruct (ctx_traceState (contexts w !!! p)) as [r|] eqn:Hr.
    + rewrite (setTraceStateProperty_bound _ _ _ p r) by done.
      destruct (object_set key value (objects w !!! r)) as [e|o'] eqn:Hset; [done|].
      apply Forall_insert; [done|].
      eapply object_set_unique_keys; [|done].
      by apply unique_keys_lookup_total.
    + unfold_ops. exec. rewrite Hp. exec. rewrite Hr. exec.
      rewrite list_lookup_total_middle by done.
      destruct (object_set key value empty_object) as [e|o'] eqn:Hset; cbn.
      * apply Forall_app. split; [done|]. apply Forall_singleton, NoDup_nil_2.
      * apply Forall_insert.
        -- apply Forall_app. split; [done|]. apply Forall_singleton, NoDup_nil_2.
        -- eapply object_set_unique_keys; [|done]. apply NoDup_nil_2.
  - destruct (store w) as [p|] eqn:Hp;
      [|unfold deleteTraceStateProperty; by rewrite guarded_outside].
    rewrite (deleteTraceStateProperty_bound _ _ p) by done.
    destruct (ctx_traceState _) as [r|]; [|done].
    destruct (object_delete key (objects w !!! r)) as [e|o'] eqn:Hdelete; [done|].
    apply Forall_insert; [done|].
    eapply object_delete_unique_keys; [|done].
    by apply unique_keys_lookup_total.
  - by apply getTraceState_objects_wf.
  - rewrite getTraceStateString_world. by apply getTraceState_objects_wf.
  - intros A name work seed Hwork.
    destruct (span_run name work seed w) as (derived & n & ->).
    unfold around. cbn. by apply Hwork.
Qed.

(** *** Spans next to and inside each other *)

(** X13: when the parent has no trace state, the mapping a nested span
    creates with [setTraceStateProperty] belongs to the child alone: back in
    the parent, the context is as it was and [getTraceState()] is [null]. *)
Theorem child_trace_state_is_new name key value w (parent : TraceContext T) :
  bound_context w = Some parent → ctx_traceState parent = None →
  ∃ (w' : world T) (created : TraceStateObject),
    span name (setTraceStateProperty key value) None w = (Returned tt, w') ∧
    objects w' = (objects w ++ [created])%list ∧
    bound_context w' = Some parent ∧
    getTraceState w' = (Returned None, w').
Proof.
  intros (p & Hp & Hparent)%bound_context_Some Hstate.
  pose proof (lookup_lt_Some _ _ _ Hparent) as Hlt.
  apply list_lookup_total_correct in Hparent as Hread.
  rewrite (span_nested_run _ _ _ p) by done. rewrite Hread, Hstate.
  unfold around. unfold_ops. exec.
  rewrite !list_lookup_total_middle by done. exec.
  rewrite list_lookup_total_middle by done.
  assert (∃ created, object_set key value empty_object = inr created) as [created ->].
  { unfold object_set; cbn. destruct (String.eqb key "__proto__"); by eexists. }
  cbn -[hex_from_entropy]. eexists _, created. split; [reflexivity|].
  cbn -[hex_from_entropy].
  rewrite insert_app_r_alt, Nat.sub_diag by done. cbn [list_insert].
  split; [done|].
  assert (∀ c c' : TraceContext T,
    <[length (contexts w) := c']> (contexts w ++ [c])%list !! p = Some parent) as Hkept.
  { intros c c'. rewrite list_lookup_insert_ne by lia. by apply lookup_app_l_Some. }
  split.
  - rewrite Hp. cbn -[hex_from_entropy]. apply Hkept.
  - rewrite Hp. cbn -[hex_from_entropy].
    by rewrite (list_lookup_total_correct _ _ _ (Hkept _ _)), Hstate.
Qed.

(** X14: a seed's [traceState] object is used as it is, not copied: what the
    traced function sets with [setTraceStateProperty] is written into the
    caller's object. *)
Theorem seed_trace_state_is_written name key value (s : Seed T) w r
    (o : TraceStateObject) :
  seed_traceState s = Some r → objects w !! r = Some o →
  frozen o = false → key ≠ "__proto__" →
  ∃ (w' : world T) (o' : TraceStateObject),
    span name (setTraceStateProperty key value) (Some s) w = (Returned tt, w') ∧
    objects w' !! r = Some o' ∧
    own_property key (props o') = Some value.
Proof.
  intros Hr Ho Hfrozen Hkey.
  pose proof (lookup_lt_Some _ _ _ Ho) as Hlt.
  apply list_lookup_total_correct in Ho as Hobj.
  destruct (object_set_unfrozen key value o Hfrozen Hkey) as (o' & Hset & Hown & _).
  rewrite span_seed_run. unfold around.
  rewrite (setTraceStateProperty_bound _ _ _ (length (contexts w)) r);
    [|done|cbn; by rewrite list_lookup_total_middle].
  cbn [objects]. rewrite Hobj, Hset.
  eexists _, o'. split; [reflexivity|]. split; [|done].
  cbn. by apply list_lookup_insert_eq.
Qed.

(** X15: a span opened while nothing is bound leaves nothing bound, however
    the traced function ends: afterwards [isInsideOfTraceSpan()] is [false]
    and the accessors throw [NotInSpanError] again. *)
Theorem span_leaves_nothing_bound {A} name (work : M T A) (seed : option (Seed T)) w :
  store w = None →
  let w' := (span name work seed w).2 in
  isInsideOfTraceSpan w' = (Returned false, w') ∧
  getSpanId w' = (Thrown NotInSpanError, w') ∧
  getTrace w' = (Thrown NotInSpanError, w') ∧
  getContextData w' = (Thrown NotInSpanError, w').
Proof.
  intros Hnone w'.
  assert (store w' = None) as Hnone' by by rewrite <- Hnone; apply keeps_store_span.
  split; [|by repeat split; apply guarded_outside].
  unfold_ops. exec. by rewrite Hnone'.
Qed.

Lemma setTraceStateProperty_first_returns key value w p :
  store w = Some p → ctx_traceState (contexts w !!! p) = None →
  ∃ w' : world T,
    setTraceStateProperty key value w = (Returned tt, w') ∧ store w' = Some p.
Proof.
  intros Hp Hstate. unfold_ops. exec. rewrite Hp. exec. rewrite Hstate. exec.
  rewrite list_lookup_total_middle by done.
  assert (∃ created, object_set key value empty_object = inr created) as [created ->].
  { unfold object_set; cbn. destruct (String.eqb key "__proto__"); by eexists. }
  by eexists.
Qed.

(** X16: two spans opened one after the other share nothing: the second does
    not see the trace state or the data the first one set. *)
Theorem sibling_spans_share_nothing (first second key value : string)
    (data : option T) w :
  store w = None →
  ((span first (setTraceStateProperty key value;; setContextData data) None;;
    span second (state ← getTraceState; d ← getContextData; mret (state, d)) None) w).1 =
  Returned (None, None).
Proof.
  intros Hnone.
  pose proof (keeps_store_span first
    (setTraceStateProperty key value;; setContextData data) None w) as Hstore.
  rewrite Hnone in Hstore.
  assert ((span first (setTraceStateProperty key value;; setContextData data)
             None w).1 = Returned tt) as Hfirst.
  { rewrite span_root_run by done. unfold around; cbn [fst].
    unfold mbind, M_bind.
    edestruct (setTraceStateProperty_first_returns key value) as (w1 & -> & Hp1);
      [done | cbn; by rewrite list_lookup_total_middle |].
    by rewrite (setContextData_bound _ _ _ Hp1). }
  unfold mbind at 1, M_bind at 1.
  destruct (span first _ None w) as [[[]|e] w1]; cbn in Hfirst, Hstore; [|done].
  rewrite span_root_run by done. unfold around; cbn [fst].
  unfold mbind, M_bind.
  rewrite (getTraceState_bound _ (length (contexts w1))) by done.
  cbn -[hex_from_entropy]. rewrite list_lookup_total_middle by done.
  cbn -[hex_from_entropy].
  rewrite (getContextData_bound _ (length (contexts w1))) by done.
  cbn -[hex_from_entropy]. by rewrite list_lookup_total_middle.
Qed.


(** *** What reading does to the state *)

Lemma freeze_keeps_props (os : list TraceStateObject) r :
  props <$> <[r := object_freeze (os !!! r)]> os = props <$> os.
Proof.
  rewrite list_fmap_insert. apply list_insert_id'. intros Hlt.
  rewrite list_lookup_fmap, list_lookup_total_alt.
  rewrite length_fmap in Hlt.
  by destruct (lookup_lt_is_Some_2 os r Hlt) as [o ->].
Qed.

(** X18: [getSpanId], [getTrace], [getTraceString], [getTraceChild],
    [getTraceChildString] and [isInsideOfTraceSpan] leave the state exactly
    as it was, bound or not.  [getTraceState] and [getTraceStateString] leave
    the contexts, the store and the properties of every trace-state object
    as they were: all they may change is that an object becomes frozen.
    [getContextData] leaves the contexts, the store and the trace-state
    objects as they were: all it may change is that the data of the bound
    context, if it is an object, becomes frozen. *)
Theorem reading_changes_nothing_but_frozen (f : string → string) w :
  (getSpanId w).2 = w ∧
  (getTrace w).2 = w ∧
  (getTraceString f w).2 = w ∧
  (getTraceChild w).2 = w ∧
  (getTraceChildString f w).2 = w ∧
  (isInsideOfTraceSpan w).2 = w ∧
  (contexts (getTraceState w).2 = contexts w ∧
   store (getTraceState w).2 = store w ∧
   props <$> objects (getTraceState w).2 = props <$> objects w) ∧
  (contexts (getTraceStateString w).2 = contexts w ∧
   store (getTraceStateString w).2 = store w ∧
   props <$> objects (getTraceStateString w).2 = props <$> objects w) ∧
  (contexts (getContextData w).2 = contexts w ∧
   store (getContextData w).2 = store w ∧
   objects (getContextData w).2 = objects w ∧
   ∀ data,
     data ∈ frozen_payloads (getContextData w).2 ↔
     data ∈ frozen_payloads w ∨
     (bound_context w ≫= ctx_data = Some data ∧ kind_of data = OrdinaryObject)).
Proof.
  assert ((getTrace w).2 = w) as HgetTrace.
  { destruct (store w) as [p|] eqn:Hp;
      [by rewrite (getTrace_bound _ p) | unfold getTrace; by rewrite guarded_outside]. }
  assert ((getTraceChild w).2 = w) as HgetTraceChild.
  { destruct (store w) as [p|] eqn:Hp;
      [by rewrite (getTraceChild_bound _ p)
      | unfold getTraceChild; by rewrite guarded_outside]. }
  assert (contexts (getTraceState w).2 = contexts w ∧
          store (getTraceState w).2 = store w ∧
          props <$> objects (getTraceState w).2 = props <$> objects w) as Hstate.
  { destruct (store w) as [p|] eqn:Hp;
      [|unfold getTraceState; by rewrite guarded_outside].
    rewrite (getTraceState_bound _ p) by done.
    destruct (ctx_traceState _) as [r|]; [|done].
    cbn. by rewrite freeze_keeps_props. }
  split.
  { destruct (store w) as [p|] eqn:Hp;
      [by rewrite (getSpanId_bound _ p) | unfold getSpanId; by rewrite guarded_outside]. }
  split; [done|]. split.
  { unfold getTraceString, mbind, M_bind.
    by destruct (getTrace w) as [[t|e] w1]; cbn in *. }
  split; [done|]. split.
  { unfold getTraceChildString, mbind, M_bind.
    by destruct (getTraceChild w) as [[t|e] w1]; cbn in *. }
  split; [unfold_ops; exec; by destruct (store w)|].
  split; [done|].
  split; [rewrite getTraceStateString_world; apply Hstate|].
  unfold bound_context.
  destruct (store w) as [p|] eqn:Hp; cbn;
    [|unfold getContextData; rewrite guarded_outside by done; cbn;
      repeat split; try done; [by left | by intros [?|[? _]]]].
  rewrite (getContextData_bound _ p) by done.
  destruct (contexts w !! p) as [c|] eqn:Hc; cbn.
  - rewrite (list_lookup_total_correct _ _ _ Hc).
    destruct (ctx_data c) as [d|]; cbn;
      [|repeat split; try done; [by left | by intros [?|[? _]]]].
    destruct (kind_of d) eqn:Hkind; cbn;
      try (repeat split; try done;
           [by left | intros [?|[[= <-] Hk]]; [done | by rewrite Hkind in Hk]]).
    destruct (mark_frozen_fields d w) as (-> & -> & -> & _ & _ & Hfrozen).
    repeat split; try done.
    + intros [?| ->]%Hfrozen; [by left | by right].
    + intros [?|[[= <-] _]]; apply Hfrozen; [by left | by right].
  - rewrite list_lookup_total_alt, Hc. cbn.
    repeat split; try done; [by left | by intros [?|[? _]]].
Qed.

(** X19: when the bound context has a mapping, [getTraceStateString()]
    writes every property of it exactly once, each as [=key,value], with
    commas in between, in the order of [Object.entries]; it returns
    [undefined] exactly when the mapping has no property. *)
Theorem trace_state_string_has_every_property w p (c : TraceContext T) r
    (o : TraceStateObject) :
  store w = Some p → contexts w !! p = Some c →
  ctx_traceState c = Some r → objects w !! r = Some o →
  ∃ entries : list (string * string),
    entries ≡ₚ props o ∧
    (getTraceStateString w).1 =
      Returned (match entries with
                | [] => None
                | _ => Some (String.concat "," (equals_key_comma_value <$> entries))
                end) ∧
    ((getTraceStateString w).1 = Returned None ↔ props o = []).
Proof.
  intros Hp Hc Hr Ho.
  rewrite (getTraceStateString_run w p c r o) by done. cbn [fst].
  pose proof (Object_entries_Permutation o) as Hperm.
  exists (Object_entries o). split; [done|].
  destruct (Object_entries o) as [|e entries]; (split; [done|]).
  - apply Permutation_nil_l in Hperm. by rewrite <- Hperm.
  - split; [done|]. intros Hempty. rewrite Hempty in Hperm.
    by apply Permutation_nil_r in Hperm.
Qed.

(** X20: called by the traced function of any span, the readers and
    [setContextData] return: none of them throws, except [getContextData]
    in a span seeded with data that is an array-buffer view with elements,
    where [Object.freeze] throws a [TypeError]. *)
Theorem readers_return_inside_span (f : string → string) name
    (seed : option (Seed T)) (data : option T) w :
  (∃ v, (span name getSpanId seed w).1 = Returned v) ∧
  (∃ v, (span name getTrace seed w).1 = Returned v) ∧
  (∃ v, (span name (getTraceString f) seed w).1 = Returned v) ∧
  (∃ v, (span name getTraceChild seed w).1 = Returned v) ∧
  (∃ v, (span name (getTraceChildString f) seed w).1 = Returned v) ∧
  (∃ v, (span name getTraceState seed w).1 = Returned v) ∧
  (∃ v, (span name getTraceStateString seed w).1 = Returned v) ∧
  (span name (setContextData data) seed w).1 = Returned tt ∧
  ((∃ d, seed ≫= seed_data = Some d ∧ kind_of d = ViewWithElements) →
   (span name getContextData seed w).1 = Thrown TypeError) ∧
  ((¬ ∃ d, seed ≫= seed_data = Some d ∧ kind_of d = ViewWithElements) →
   (span name getContextData seed w).1 = Returned (seed ≫= seed_data)).
Proof.
  assert ((span name getContextData seed w).1 = frozen_or_null (seed ≫= seed_data))
    as Hdata.
  { destruct seed as [s|]; [|destruct (store w) as [p|] eqn:Hp].
    - rewrite span_seed_run. unfold around; cbn [fst].
      rewrite (getContextData_result _ (length (contexts w))) by done.
      cbn. by rewrite list_lookup_total_middle.
    - rewrite (span_nested_run _ _ _ p) by done. unfold around; cbn [fst].
      rewrite (getContextData_result _ (length (contexts w))) by done.
      cbn -[hex_from_entropy]. by rewrite list_lookup_total_middle.
    - rewrite span_root_run by done. unfold around; cbn [fst].
      rewrite (getContextData_result _ (length (contexts w))) by done.
      cbn -[hex_from_entropy]. by rewrite list_lookup_total_middle. }
  rewrite Hdata. unfold frozen_or_null.
  repeat split;
    try (match goal with |- context [span name ?work seed w] =>
           destruct (span_run name work seed w) as (derived & n & ->)
         end; unfold around; cbn [fst]).
  - by rewrite (getSpanId_bound _ (length (contexts w))); [eexists|].
  - by rewrite (getTrace_bound _ (length (contexts w))); [eexists|].
  - unfold getTraceString, mbind, M_bind.
    by rewrite (getTrace_bound _ (length (contexts w))); [eexists|].
  - by rewrite (getTraceChild_bound _ (length (contexts w))); [eexists|].
  - unfold getTraceChildString, mbind, M_bind.
    by rewrite (getTraceChild_bound _ (length (contexts w))); [eexists|].
  - rewrite (getTraceState_bound _ (length (contexts w))) by done.
    destruct (ctx_traceState _); by eexists.
  - unfold getTraceStateString, mbind, M_bind.
    rewrite (getTraceState_bound _ (length (contexts w))) by done.
    destruct (ctx_traceState _); [|by eexists].
    exec. case_match; by eexists.
  - by rewrite (setContextData_bound _ _ (length (contexts w))).
  - by intros (d & -> & ->).
  - intros Hnot. destruct (seed ≫= seed_data) as [d|]; [|done].
    destruct (kind_of d) eqn:Hkind; try done.
    destruct Hnot. by exists d.
Qed.

(** *** Building a context *)

(** X21: [buildTraceContext] returns a reference that was not in use, to a
    new context that has the fields given, a 16-character hex [id], and the
    invalid span id as [parentId] when none is given; the contexts allocated
    before, the trace-state objects and the store are untouched. *)
Theorem buildTraceContext_allocates name (parentId : option string)
    (traceId : option string) (version traceFlags : number)
    (traceState : option ref) (data : option T) w :
  ∃ (c : TraceContext T) (w' : world T),
    buildTraceContext name parentId traceId version traceFlags traceState data w =
      (Returned (length (contexts w)), w') ∧
    contexts w !! length (contexts w) = None ∧
    contexts w' = (contexts w ++ [c])%list ∧
    objects w' = objects w ∧ store w' = store w ∧
    ctx_parentId c = default INVALID_SPAN_ID parentId ∧
    (ctx_name c, ctx_traceId c, ctx_version c, ctx_traceFlags c,
     ctx_traceState c, ctx_data c) =
      (name, traceId, version, traceFlags, traceState, data) ∧
    String.length (ctx_id c) = 16 ∧
    string_forallb is_hex_digit (ctx_id c) = true.
Proof.
  eexists _, _. split; [reflexivity|].
  split; [by apply lookup_ge_None|].
  cbn -[hex_from_entropy toLowerCase Buffer_toString_hex].
  repeat split;
    first [apply hex_from_entropy_length | apply hex_string_digits | done].
Qed.

End Coverage.

(** ** Sample runs of the further properties *)

Lemma root_span_trace_strings_witness :
  store (initial_world unit sample_bytes) = None ∧
  ∃ traceId spanId : string,
    (span "s"
       (s ← getTraceString (λ x, x); c ← getTraceChildString (λ x, x);
        id ← getSpanId; mret (s, c, id)) None (initial_world unit sample_bytes)).1 =
    Returned ("0-" +:+ traceId +:+ "-0000000000000000-0",
              "0-" +:+ traceId +:+ "-" +:+ spanId +:+ "-0", spanId).
Proof.
  split; [reflexivity|].
  destruct (root_span_trace_strings (T:=unit) (λ x, x) "s"
              (initial_world unit sample_bytes) eq_refl)
    as (traceId & spanId & _ & Hrun).
  by exists traceId, spanId.
Defined.

Lemma context_data_is_replaced_witness :
  (span "s" getContextData (Some (seed_with_data body_buffer))
     (initial_world sample_payload sample_bytes)).1 = Thrown TypeError ∧
  (span "s" (setContextData (Some body_buffer);; setContextData (Some request_object);;
             getContextData)
     (Some (seed_with_data body_buffer))
     (initial_world sample_payload sample_bytes)).1 = Returned (Some request_object) ∧
  request_object ∈
    frozen_payloads
      (span "s" (setContextData (Some body_buffer);; setContextData (Some request_object);;
                 getContextData)
         (Some (seed_with_data body_buffer))
         (initial_world sample_payload sample_bytes)).2.
Proof.
  destruct (context_data_is_replaced "s" (Some (seed_with_data body_buffer))
              (Some body_buffer) (Some request_object)
              (initial_world sample_payload sample_bytes))
    as (Hfirst & Hlast & Hfrozen & _).
  split; [exact Hfirst|]. split; [exact Hlast|].
  exact (Hfrozen request_object eq_refl eq_refl).
Defined.

Lemma readers_return_inside_span_witness :
  (∃ d, Some (seed_with_data body_buffer) ≫= seed_data = Some d ∧
        kind_of d = ViewWithElements) ∧
  (span "s" getContextData (Some (seed_with_data body_buffer))
     (initial_world sample_payload sample_bytes)).1 = Thrown TypeError ∧
  (span "s" getContextData (Some (seed_with_data request_object))
     (initial_world sample_payload sample_bytes)).1 = Returned (Some request_object).
Proof.
  assert (∃ d, Some (seed_with_data body_buffer) ≫= seed_data = Some d ∧
               kind_of d = ViewWithElements) as Hbuffer
    by (exists body_buffer; split; reflexivity).
  split; [exact Hbuffer|]. split.
  - destruct (readers_return_inside_span (λ s, s) "s" (Some (seed_with_data body_buffer))
                None (initial_world sample_payload sample_bytes))
      as (_ & _ & _ & _ & _ & _ & _ & _ & Hthrows & _).
    exact (Hthrows Hbuffer).
  - destruct (readers_return_inside_span (λ s, s) "s"
                (Some (seed_with_data request_object))
                None (initial_world sample_payload sample_bytes))
      as (_ & _ & _ & _ & _ & _ & _ & _ & _ & Hreturns).
    apply Hreturns. intros (d & [= <-] & Hkind). discriminate Hkind.
Defined.

Lemma child_data_is_its_own_witness :
  ∃ parent,
    bound_context inside_parent = Some parent ∧
    (span "child" getContextData None inside_parent).1 = Returned None ∧
    bound_context (span "child" (setContextData (Some tt)) None inside_parent).2 =
      Some parent.
Proof.
  exists (contexts inside_parent !!! 0).
  split; [vm_compute; reflexivity|].
  destruct (child_data_is_its_own (T:=unit) "child" (Some tt) inside_parent
              (contexts inside_parent !!! 0)) as (Hsees & Hbound & _);
    [vm_compute; reflexivity|].
  by split.
Defined.

Lemma setTraceStateProperty_creates_mapping_witness :
  ∃ c w',
    store inside_plain = Some 0 ∧ contexts inside_plain !! 0 = Some c ∧
    ctx_traceState c = None ∧ "aKey" ≠ "__proto__" ∧
    setTraceStateProperty "aKey" "aValue" inside_plain = (Returned tt, w') ∧
    objects w' = [ {| props := [("aKey", "aValue")]; frozen := false |} ].
Proof.
  exists (contexts inside_plain !!! 0).
  destruct (setTraceStateProperty_creates_mapping (T:=unit) "aKey" "aValue"
              inside_plain 0 (contexts inside_plain !!! 0))
    as (w' & Hrun & Hobjects & _); [vm_compute; reflexivity .. | done |].
  exists w'. by repeat split.
Defined.

Lemma setTraceStateProperty_then_lookup_witness :
  ∃ c o o',
    store inside_parent = Some 0 ∧ contexts inside_parent !! 0 = Some c ∧
    ctx_traceState c = Some 0 ∧ objects inside_parent !! 0 = Some o ∧
    frozen o = false ∧ "k" ≠ "__proto__" ∧
    setTraceStateProperty "k" "v2" inside_parent =
      (Returned tt, set_objects (<[0 := o']> (objects inside_parent)) inside_parent) ∧
    own_property "k" (props o') = Some "v2".
Proof.
  exists (contexts inside_parent !!! 0), (objects inside_parent !!! 0).
  destruct (setTraceStateProperty_then_lookup (T:=unit) "k" "v2" inside_parent 0
              (contexts inside_parent !!! 0) 0 (objects inside_parent !!! 0))
    as (o' & Hrun & Hown & _); [vm_compute; reflexivity .. | done |].
  exists o'. by repeat split.
Defined.

Lemma deleteTraceStateProperty_absent_witness :
  ∃ c,
    store inside_plain = Some 0 ∧ contexts inside_plain !! 0 = Some c ∧
    ctx_traceState c = None ∧
    deleteTraceStateProperty "aKey" inside_plain = (Returned tt, inside_plain).
Proof.
  exists (contexts inside_plain !!! 0).
  split; [vm_compute; reflexivity|]. split; [vm_compute; reflexivity|].
  split; [vm_compute; reflexivity|].
  apply (deleteTraceStateProperty_absent (T:=unit) "aKey" inside_plain 0
           (contexts inside_plain !!! 0));
    [vm_compute; reflexivity .. |].
  intros r o Hr. vm_compute in Hr. discriminate Hr.
Defined.

Lemma deleteTraceStateProperty_present_witness :
  ∃ c o o',
    store inside_parent = Some 0 ∧ contexts inside_parent !! 0 = Some c ∧
    ctx_traceState c = Some 0 ∧ objects inside_parent !! 0 = Some o ∧
    is_Some (own_property "k" (props o)) ∧ frozen o = false ∧ unique_keys o ∧
    deleteTraceStateProperty "k" inside_parent =
      (Returned tt, set_objects (<[0 := o']> (objects inside_parent)) inside_parent) ∧
    own_property "k" (props o') = None.
Proof.
  exists (contexts inside_parent !!! 0), {| props := [("k", "v")]; frozen := false |}.
  assert (unique_keys {| props := [("k", "v")]; frozen := false |}) as Hunique
    by apply NoDup_singleton.
  assert (is_Some (own_property "k" [("k", "v")])) as Hown by by eexists.
  assert (store inside_parent = Some 0) as Hp by (vm_compute; reflexivity).
  assert (contexts inside_parent !! 0 = Some (contexts inside_parent !!! 0)) as Hc
    by (vm_compute; reflexivity).
  assert (ctx_traceState (contexts inside_parent !!! 0) = Some 0) as Hr
    by (vm_compute; reflexivity).
  assert (objects inside_parent !! 0 = Some {| props := [("k", "v")]; frozen := false |})
    as Ho by (vm_compute; reflexivity).
  destruct (deleteTraceStateProperty_present (T:=unit) "k" inside_parent 0
              (contexts inside_parent !!! 0) 0
              {| props := [("k", "v")]; frozen := false |}
              Hp Hc Hr Ho Hown eq_refl Hunique)
    as (o' & Hrun & Hgone & _).
  exists o'. by repeat split.
Defined.

Lemma deleteTraceStateProperty_after_getTraceState_witness :
  ∃ c o,
    store inside_parent = Some 0 ∧ contexts inside_parent !! 0 = Some c ∧
    ctx_traceState c = Some 0 ∧ objects inside_parent !! 0 = Some o ∧
    ((getTraceState;; deleteTraceStateProperty "k") inside_parent).1 =
      Thrown TypeError.
Proof.
  exists (contexts inside_parent !!! 0), {| props := [("k", "v")]; frozen := false |}.
  split; [vm_compute; reflexivity|]. split; [vm_compute; reflexivity|].
  split; [vm_compute; reflexivity|]. split; [vm_compute; reflexivity|].
  rewrite (deleteTraceStateProperty_after_getTraceState (T:=unit) "k" inside_parent 0
             (contexts inside_parent !!! 0) 0
             {| props := [("k", "v")]; frozen := false |});
    [reflexivity | vm_compute; reflexivity ..].
Defined.

Lemma trace_state_keys_stay_unique_witness :
  objects_wf inside_parent ∧
  objects_wf (setTraceStateProperty "k2" "w" inside_parent).2 ∧
  objects_wf (deleteTraceStateProperty "k" inside_parent).2.
Proof.
  assert (objects_wf inside_parent) as Hwf.
  { unfold objects_wf.
    assert (objects inside_parent = [ {| props := [("k", "v")]; frozen := false |} ])
      as -> by (vm_compute; reflexivity).
    apply Forall_singleton, NoDup_singleton. }
  split; [exact Hwf|].
  destruct (trace_state_keys_stay_unique (T:=unit) "k2" "w" inside_parent Hwf)
    as (Hset & _).
  destruct (trace_state_keys_stay_unique (T:=unit) "k" "w" inside_parent Hwf)
    as (_ & Hdelete & _).
  by split.
Defined.

Lemma child_trace_state_is_new_witness :
  ∃ parent w' created,
    bound_context inside_plain = Some parent ∧ ctx_traceState parent = None ∧
    span "child" (setTraceStateProperty "aKey" "aValue") None inside_plain =
      (Returned tt, w') ∧
    objects w' = (objects inside_plain ++ [created])%list ∧
    bound_context w' = Some parent.
Proof.
  exists (contexts inside_plain !!! 0).
  destruct (child_trace_state_is_new (T:=unit) "child" "aKey" "aValue" inside_plain
              (contexts inside_plain !!! 0))
    as (w' & created & Hrun & Hobjects & Hbound & _); [vm_compute; reflexivity ..|].
  exists w', created. repeat split; try done; vm_compute; reflexivity.
Defined.

Lemma seed_trace_state_is_written_witness :
  seed_traceState test_seed = Some 0 ∧ objects test_world !! 0 = Some test_state ∧
  frozen test_state = false ∧ "aKey" ≠ "__proto__" ∧
  ∃ w' o',
    span "test span" (setTraceStateProperty "aKey" "aValue") (Some test_seed) test_world =
      (Returned tt, w') ∧
    objects w' !! 0 = Some o' ∧ own_property "aKey" (props o') = Some "aValue".
Proof.
  repeat split; [done|].
  by apply (seed_trace_state_is_written (T:=unit) "test span" "aKey" "aValue"
              test_seed test_world 0 test_state).
Defined.

Lemma span_leaves_nothing_bound_witness :
  store (initial_world unit sample_bytes) = None ∧
  (getSpanId
     (span "s" (mthrow (HostError "boom") : M unit unit) None
        (initial_world unit sample_bytes)).2).1 = Thrown NotInSpanError.
Proof.
  split; [reflexivity|].
  destruct (span_leaves_nothing_bound (T:=unit) "s"
              (mthrow (HostError "boom") : M unit unit) None
              (initial_world unit sample_bytes) eq_refl) as (_ & -> & _).
  reflexivity.
Defined.

Lemma sibling_spans_share_nothing_witness :
  store (initial_world unit sample_bytes) = None ∧
  ((span "first" (setTraceStateProperty "aKey" "aValue";; setContextData (Some tt)) None;;
    span "second" (state ← getTraceState; d ← getContextData; mret (state, d)) None)
     (initial_world unit sample_bytes)).1 = Returned (None, None).
Proof.
  split; [reflexivity|].
  by apply (sibling_spans_share_nothing (T:=unit) "first" "second" "aKey" "aValue"
              (Some tt) (initial_world unit sample_bytes)).
Defined.


Lemma trace_state_string_has_every_property_witness :
  ∃ c o entries,
    store inside_parent = Some 0 ∧ contexts inside_parent !! 0 = Some c ∧
    ctx_traceState c = Some 0 ∧ objects inside_parent !! 0 = Some o ∧
    entries ≡ₚ props o ∧
    ¬ (getTraceStateString inside_parent).1 = Returned None.
Proof.
  exists (contexts inside_parent !!! 0), {| props := [("k", "v")]; frozen := false |}.
  destruct (trace_state_string_has_every_property (T:=unit) inside_parent 0
              (contexts inside_parent !!! 0) 0
              {| props := [("k", "v")]; frozen := false |})
    as (entries & Hperm & _ & Hnone); [vm_compute; reflexivity ..|].
  exists entries. repeat split; try (vm_compute; reflexivity); [done|].
  intros Hempty%Hnone. discriminate Hempty.
Defined.
